(** * model_loader_ddbb_chat: a shallow embedding and its checked properties

    The program is a natural-language-to-SQL assistant written in Python:
    it describes a MySQL schema, asks a remote chat model for a query,
    runs the query, formats the rows and asks the model for an answer.

    Conventions of the embedding:
    - a Python [str] is a [string]; a character is a code point in
      U+0000..U+00FF (Rocq's [ascii]), with Python's whitespace and case
      rules on that range;
    - Python values that flow through the pipeline ([List[Any]]) are the
      inductive [valor];
    - effects (console, HTTP, database cursor) are threaded through a
      state-and-exception monad [M] over an abstract environment, and every
      call that leaves the process is logged in a trace. *)

From Stdlib Require Import String Ascii List Bool Arith ZArith Lia.
From Stdlib Require QArith.
From Stdlib Require Import DecimalString.
Import ListNotations.

Set Warnings "-register-all".

Local Open Scope list_scope.
Local Open Scope string_scope.

(* ===================================================================== *)
(** ** Python strings *)
(* ===================================================================== *)

Module PyStr.

(** [str.isspace] on one character, for code points below 256:
    TAB..CR, FS..US, SPACE, NEL (U+0085) and NBSP (U+00A0).  The regular
    expression class [\s] of a [str] pattern is the same set. *)
Definition isspace (c : ascii) : bool :=
  let n := nat_of_ascii c in
  (((9 <=? n) && (n <=? 13)) || ((28 <=? n) && (n <=? 32))
   || (n =? 133) || (n =? 160))%nat.

(** [str.lower] on one character, for code points below 256: A..Z and the
    Latin-1 capitals U+00C0..U+00DE (but the multiplication sign U+00D7). *)
Definition lower_char (c : ascii) : ascii :=
  let n := nat_of_ascii c in
  if (((65 <=? n) && (n <=? 90))
      || ((192 <=? n) && (n <=? 222) && negb (n =? 215)))%nat
  then ascii_of_nat (n + 32) else c.

Fixpoint lower (s : string) : string :=
  match s with
  | "" => ""
  | String c s' => String (lower_char c) (lower s')
  end.

Fixpoint lstrip (s : string) : string :=
  match s with
  | "" => ""
  | String c s' => if isspace c then lstrip s' else s
  end.

Fixpoint rstrip (s : string) : string :=
  match s with
  | "" => ""
  | String c s' =>
      match rstrip s' with
      | "" => if isspace c then "" else String c ""
      | r => String c r
      end
  end.

(** [s.strip()] *)
Definition strip (s : string) : string := rstrip (lstrip s).

(** [s.startswith(p)] *)
Definition startswith (s p : string) : bool := prefix p s.

(** [s[n:]] for [0 <= n] *)
Fixpoint drop (n : nat) (s : string) : string :=
  match n, s with
  | O, _ => s
  | S _, "" => ""
  | S n', String _ s' => drop n' s'
  end.

(** [sep.join(xs)] is [String.concat sep xs]. *)

(** [c in s] *)
Fixpoint contains (c : ascii) (s : string) : bool :=
  match s with
  | "" => false
  | String a s' => Ascii.eqb a c || contains c s'
  end.

(** every character satisfies [p] *)
Fixpoint all (p : ascii -> bool) (s : string) : bool :=
  match s with
  | "" => true
  | String c s' => p c && all p s'
  end.

Definition LF : ascii := "010"%char.

(** The text is empty or starts with a whitespace character. *)
Definition empieza_con_espacio (x : string) : Prop :=
  match x with
  | "" => True
  | String c _ => isspace c = true
  end.

(** No character of the text is whitespace. *)
Definition sin_espacios (p : string) : bool :=
  all (fun c => negb (isspace c)) p.

End PyStr.

(* ===================================================================== *)
(** ** The regular expressions of the program *)
(* ===================================================================== *)

(** The program uses [re.sub] with six patterns.  Five have the shape
    [D(.+?)D] for a literal delimiter [D]; the sixth is the alternation
    [```sql\s*|\s*```].  [re.sub] scans left to right, replaces every
    non-overlapping match and copies the other characters. *)
Module Re.

(** [.] without DOTALL: any character but the line feed. *)
Definition dot (c : ascii) : bool := negb (Ascii.eqb c PyStr.LF).

(** The lazy group [.+?] once it holds a character, followed by the closing
    delimiter [d]: stop as soon as [d] is next, else take one more
    character.  Returns the rest of the group and the text after [d]. *)
Fixpoint lazy_until (d s : string) : option (string * string) :=
  if prefix d s then Some ("", PyStr.drop (String.length d) s)
  else match s with
       | "" => None
       | String c s' =>
           if dot c then
             match lazy_until d s' with
             | Some (g, r) => Some (String c g, r)
             | None => None
             end
           else None
       end.

(** A match of [d(.+?)d] at the head of [s]: the group and the text after
    the match. *)
Definition match_delim (d s : string) : option (string * string) :=
  if prefix d s then
    match PyStr.drop (String.length d) s with
    | String c s' =>
        if dot c then
          match lazy_until d s' with
          | Some (g, r) => Some (String c g, r)
          | None => None
          end
        else None
    | "" => None
    end
  else None.

(** [re.sub(d(.+?)d, r"\1", s)], the scan bounded by the length of [s]. *)
Fixpoint sub_delim_aux (n : nat) (d s : string) : string :=
  match n with
  | O => s
  | S n' =>
      match match_delim d s with
      | Some (g, r) => g ++ sub_delim_aux n' d r
      | None =>
          match s with
          | "" => ""
          | String c s' => String c (sub_delim_aux n' d s')
          end
      end
  end.

Definition sub_delim (d s : string) : string :=
  sub_delim_aux (String.length s) d s.

(** A match of [```sql\s*|\s*```] at the head of [s]: the text after it.
    The first alternative is tried first; [\s*] is greedy, and giving
    characters back never helps, since a fence cannot start with a
    whitespace character. *)
Definition match_fence (s : string) : option string :=
  if prefix "```sql" s then Some (PyStr.lstrip (PyStr.drop 6 s))
  else
    let t := PyStr.lstrip s in
    if prefix "```" t then Some (PyStr.drop 3 t) else None.

(** [re.sub(r"```sql\s*|\s*```", "", s)] *)
Fixpoint sub_fence_aux (n : nat) (s : string) : string :=
  match n with
  | O => s
  | S n' =>
      match match_fence s with
      | Some r => sub_fence_aux n' r
      | None =>
          match s with
          | "" => ""
          | String c s' => String c (sub_fence_aux n' s')
          end
      end
  end.

Definition sub_fence (s : string) : string := sub_fence_aux (String.length s) s.

End Re.

(* ===================================================================== *)
(** ** Text utilities *)
(* ===================================================================== *)

(** [patrones] of [limpiar_markdown], by their delimiters, in order. *)
Definition patrones : list string := ["**"; "__"; "*"; "_"; "`"].

(** [limpiar_markdown(texto)]: each pattern is substituted in turn, then
    the text is stripped. *)
Definition limpiar_markdown (texto : string) : string :=
  PyStr.strip (fold_left (fun t patron => Re.sub_delim patron t) patrones texto).

(** None of the characters that the patterns of [limpiar_markdown] start
    with occurs in the text. *)
Definition sin_marcas (s : string) : bool :=
  negb (PyStr.contains "*"%char s) && negb (PyStr.contains "_"%char s)
  && negb (PyStr.contains "`"%char s).

(** The pattern of delimiter [d] has a match somewhere in [s]: at its
    head, or further on. *)
Fixpoint coincide_en (d s : string) : bool :=
  match Re.match_delim d s with
  | Some _ => true
  | None =>
      match s with
      | "" => false
      | String _ s' => coincide_en d s'
      end
  end.

(** None of the five patterns of [limpiar_markdown] has a match in [s]. *)
Definition sin_coincidencias (s : string) : bool :=
  forallb (fun patron => negb (coincide_en patron s)) patrones.

(** The last two lines of [generar_sql], applied to the text of the reply:
    [sql = contenido.strip()], then
    [re.sub(r"```sql\s*|\s*```", "", sql)]. *)
Definition extraer_sql (contenido : string) : string :=
  Re.sub_fence (PyStr.strip contenido).

Definition NL : string := String PyStr.LF "".

(* ===================================================================== *)
(** ** Python values and exceptions *)
(* ===================================================================== *)

(** The values that the database driver hands back and that travel through
    [ejecutar_sql] and [formatear_resultado] (typed [List[Any]] in the
    source): [None], integers, text, and tuples of values (rows). *)
Inductive valor : Type :=
| VNone
| VInt (z : Z)
| VStr (s : string)
| VTuple (vs : list valor).

Module PyRepr.

Definition BACKSLASH : ascii := "092"%char.
Definition APOS : ascii := "'"%char.
Definition QUOT : ascii := "034"%char.

Definition hex_digit (n : nat) : ascii :=
  if (n <? 10)%nat then ascii_of_nat (48 + n) else ascii_of_nat (87 + n).

(** [\xhh] *)
Definition escape_hex (c : ascii) : string :=
  let n := nat_of_ascii c in
  String BACKSLASH ("x" ++ String (hex_digit (n / 16)) (String (hex_digit (n mod 16)) "")).

(** [str.isprintable] on one character above U+007F and below U+0100: the
    C1 controls, NBSP and the soft hyphen are not printable. *)
Definition printable_latin1 (n : nat) : bool :=
  ((161 <=? n) && negb (n =? 173))%nat.

Definition escape_char (quote c : ascii) : string :=
  let n := nat_of_ascii c in
  if Ascii.eqb c quote || Ascii.eqb c BACKSLASH then String BACKSLASH (String c "")
  else if (n =? 9)%nat then String BACKSLASH "t"
  else if (n =? 10)%nat then String BACKSLASH "n"
  else if (n =? 13)%nat then String BACKSLASH "r"
  else if ((n <? 32) || (n =? 127))%nat then escape_hex c
  else if (n <? 127)%nat then String c ""
  else if printable_latin1 n then String c "" else escape_hex c.

Fixpoint escape (quote : ascii) (s : string) : string :=
  match s with
  | "" => ""
  | String c s' => escape_char quote c ++ escape quote s'
  end.

(** [repr(s)] for a [str]: single quotes, unless the text holds a single
    quote and no double quote. *)
Definition repr_str (s : string) : string :=
  let quote :=
    if PyStr.contains APOS s && negb (PyStr.contains QUOT s) then QUOT else APOS in
  String quote (escape quote s) ++ String quote "".

Definition str_Z (z : Z) : string := NilZero.string_of_int (Z.to_int z).
Definition str_nat (n : nat) : string := NilZero.string_of_uint (Nat.to_uint n).

(** [repr(v)] *)
Fixpoint repr (v : valor) : string :=
  match v with
  | VNone => "None"
  | VInt z => str_Z z
  | VStr s => repr_str s
  | VTuple vs =>
      match vs with
      | [_] => "(" ++ String.concat ", " (map repr vs) ++ ",)"
      | _ => "(" ++ String.concat ", " (map repr vs) ++ ")"
      end
  end.

(** [str(v)], which is also what an f-string field [{v}] renders. *)
Definition str (v : valor) : string :=
  match v with
  | VStr s => s
  | _ => repr v
  end.

End PyRepr.

(** Exception classes the program can meet.  [Timeout] stands for
    [requests.exceptions.Timeout] and its subclasses ([ConnectTimeout],
    [ReadTimeout]); [JSONDecodeError] for the one of [requests], a
    [RequestException]; [DatabaseError] for [mysql.connector.Error]. *)
Inductive clase_exc : Type :=
| Timeout | ConnectionError | HTTPError | JSONDecodeError | RequestException
| DatabaseError
| KeyError | IndexError | TypeError | ValueError | AttributeError | EOFError
| KeyboardInterrupt.

(** [isinstance(e, requests.exceptions.Timeout)] *)
Definition es_Timeout (c : clase_exc) : bool :=
  match c with Timeout => true | _ => false end.

(** [isinstance(e, requests.exceptions.RequestException)] *)
Definition es_RequestException (c : clase_exc) : bool :=
  match c with
  | Timeout | ConnectionError | HTTPError | JSONDecodeError | RequestException => true
  | _ => false
  end.

(** [isinstance(e, Exception)]: everything but [KeyboardInterrupt], which
    derives from [BaseException] only. *)
Definition es_Exception (c : clase_exc) : bool :=
  match c with KeyboardInterrupt => false | _ => true end.

(** An exception object: its class and [str(e)]. *)
Record excepcion : Type := Exc { clase : clase_exc; mensaje : string }.

(** A pure computation that may raise. *)
Definition resultado_de (A : Type) : Type := (excepcion + A)%type.

(** What iterating over a value yields: the items of a tuple, the
    characters of a string; other values are not iterable. *)
Definition iterar (v : valor) : resultado_de (list valor) :=
  match v with
  | VTuple vs => inr vs
  | VStr s => inr (map (fun c => VStr (String c "")) (list_ascii_of_string s))
  | VNone => inl (Exc TypeError "'NoneType' object is not iterable")
  | VInt _ => inl (Exc TypeError "'int' object is not iterable")
  end.

(** Unpacking a value into exactly [n] targets, as in [for (tabla,) in ...]
    and [for columna, tipo_dato in ...]; the messages are those of
    Python 3.11. *)
Definition desempaquetar (n : nat) (v : valor) : resultado_de (list valor) :=
  match v with
  | VNone => inl (Exc TypeError "cannot unpack non-iterable NoneType object")
  | VInt _ => inl (Exc TypeError "cannot unpack non-iterable int object")
  | _ =>
      match iterar v with
      | inl e => inl e
      | inr vs =>
          if (List.length vs =? n)%nat then inr vs
          else if (List.length vs <? n)%nat then
            inl (Exc ValueError
                   ("not enough values to unpack (expected " ++ PyRepr.str_nat n
                      ++ ", got " ++ PyRepr.str_nat (List.length vs) ++ ")"))
          else
            inl (Exc ValueError
                   ("too many values to unpack (expected " ++ PyRepr.str_nat n ++ ")"))
      end
  end.

(* ===================================================================== *)
(** ** JSON documents and the chat wire format *)
(* ===================================================================== *)

(** What [Response.json()] returns and what [generar_respuesta] hands to
    its callers: a [dict] is an association list in key order. *)
Inductive json : Type :=
| JNull
| JBool (b : bool)
| JNum (z : Z)
| JStr (s : string)
| JArr (xs : list json)
| JObj (kvs : list (string * json)).

Fixpoint buscar (k : string) (kvs : list (string * json)) : option json :=
  match kvs with
  | [] => None
  | (k', v) :: resto => if String.eqb k' k then Some v else buscar k resto
  end.

(** [type(j).__name__] *)
Definition tipo_json (j : json) : string :=
  match j with
  | JNull => "NoneType"
  | JBool _ => "bool"
  | JNum _ => "int"
  | JStr _ => "str"
  | JArr _ => "list"
  | JObj _ => "dict"
  end.

(** [j[k]] for a string key; the messages are those of Python 3.11. *)
Definition item_clave (j : json) (k : string) : resultado_de json :=
  match j with
  | JObj kvs =>
      match buscar k kvs with
      | Some v => inr v
      | None => inl (Exc KeyError (PyRepr.repr_str k))
      end
  | JStr _ => inl (Exc TypeError "string indices must be integers, not 'str'")
  | JArr _ => inl (Exc TypeError "list indices must be integers or slices, not str")
  | _ => inl (Exc TypeError ("'" ++ tipo_json j ++ "' object is not subscriptable"))
  end.

(** [j[0]] *)
Definition item_cero (j : json) : resultado_de json :=
  match j with
  | JArr (x :: _) => inr x
  | JArr [] => inl (Exc IndexError "list index out of range")
  | JStr (String c _) => inr (JStr (String c ""))
  | JStr "" => inl (Exc IndexError "string index out of range")
  | JObj _ => inl (Exc KeyError "0")
  | _ => inl (Exc TypeError ("'" ++ tipo_json j ++ "' object is not subscriptable"))
  end.

Definition ligar {A B} (r : resultado_de A) (f : A -> resultado_de B) : resultado_de B :=
  match r with
  | inl e => inl e
  | inr a => f a
  end.

(** [respuesta["choices"][0]["message"]["content"]] *)
Definition contenido (respuesta : json) : resultado_de json :=
  ligar (item_clave respuesta "choices") (fun choices =>
  ligar (item_cero choices) (fun choice =>
  ligar (item_clave choice "message") (fun message =>
  item_clave message "content"))).

(** [{"choices": [{"message": {"content": texto}}]}] *)
Definition respuesta_sintetica (texto : string) : json :=
  JObj [("choices", JArr [JObj [("message", JObj [("content", JStr texto)])]])].

(** A chat message [{"role": ..., "content": ...}]. *)
Record Mensaje : Type := { role : string; content : string }.

(** The request body [carga].  The two floats are passed through verbatim
    and never computed with; they are kept as the decimal literal of the
    source, read as a rational. *)
Record Carga : Type := {
  model : string;
  messages : list Mensaje;
  temperature : QArith_base.Q;
  top_p : QArith_base.Q;
  max_tokens : Z
}.

(** A [requests.Response], as far as the program looks at it: the status
    line, the URL, and what [.json()] does (the decoded document, or the
    exception it raises on a body that is not JSON). *)
Record Respuesta : Type := {
  status_code : Z;
  reason : string;
  url : string;
  cuerpo : resultado_de json
}.

(** [Response.raise_for_status()] of [requests]: an [HTTPError] for a 4xx
    or 5xx status. *)
Definition raise_for_status (r : Respuesta) : resultado_de unit :=
  if ((400 <=? status_code r) && (status_code r <? 500))%Z then
    inl (Exc HTTPError (PyRepr.str_Z (status_code r) ++ " Client Error: "
                         ++ reason r ++ " for url: " ++ url r))
  else if ((500 <=? status_code r) && (status_code r <? 600))%Z then
    inl (Exc HTTPError (PyRepr.str_Z (status_code r) ++ " Server Error: "
                         ++ reason r ++ " for url: " ++ url r))
  else inr tt.

(* ===================================================================== *)
(** ** The environment and the monad of effects *)
(* ===================================================================== *)

(** Every call that leaves the process, in the order it is made. *)
Inductive evento : Type :=
| EvInput (prompt : string)
| EvPrint (texto : string)
| EvPost (direccion : string) (carga : Carga)
| EvCursor
| EvExecute (consulta : string) (params : list valor)
| EvFetchall.

(** The external collaborators: the console, the chat completion service
    behind [requests.post] (always called with [ENCABEZADOS], [verify=False]
    and [timeout=120]), and the database handle with its current cursor.
    Each operation may change the state of the outside world and either
    returns or raises. *)
Record Entorno : Type := {
  estado : Type;
  env_input : string -> estado -> estado * resultado_de string;
  env_post : string -> Carga -> estado -> estado * resultado_de Respuesta;
  env_cursor : estado -> estado * resultado_de unit;
  env_execute : string -> list valor -> estado -> estado * resultado_de unit;
  env_fetchall : estado -> estado * resultado_de (option (list valor))
}.

Section Programa.

Context {E : Entorno}.

(** The world: the state of the environment and the trace so far. *)
Record Mundo : Type := { est : estado E; traza : list evento }.

(** A computation: runs in a world, leaves a world, returns or raises. *)
Definition M (A : Type) : Type := Mundo -> Mundo * resultado_de A.

Definition ret {A} (a : A) : M A := fun w => (w, inr a).

Definition bind {A B} (m : M A) (f : A -> M B) : M B :=
  fun w =>
    match m w with
    | (w', inl e) => (w', inl e)
    | (w', inr a) => f a w'
    end.

(** A pure computation that may raise, run inside [M]. *)
Definition puro {A} (r : resultado_de A) : M A := fun w => (w, r).

(** [try: m  except ...: ...], where [h e] is the body of the first clause
    that matches [e], and [None] when no clause does. *)
Definition try_except {A} (m : M A) (h : excepcion -> option (M A)) : M A :=
  fun w =>
    match m w with
    | (w', inl e) =>
        match h e with
        | Some k => k w'
        | None => (w', inl e)
        end
    | r => r
    end.

(** The world after a call [ev] that left the environment in state [s]. *)
Definition anotar (ev : evento) (s : estado E) (w : Mundo) : Mundo :=
  {| est := s; traza := (traza w ++ [ev])%list |}.

(** One call to the environment, logged. *)
Definition llamar {A} (ev : evento) (op : estado E -> estado E * resultado_de A) : M A :=
  fun w =>
    let (s, r) := op (est w) in
    (anotar ev s w, r).

(** The world after [print(texto)]. *)
Definition tras_print (texto : string) (w : Mundo) : Mundo :=
  anotar (EvPrint texto) (est w) w.

Definition input (prompt : string) : M string :=
  llamar (EvInput prompt) (env_input E prompt).

Definition print (texto : string) : M unit :=
  llamar (EvPrint texto) (fun s => (s, inr tt)).

Definition requests_post (direccion : string) (carga : Carga) : M Respuesta :=
  llamar (EvPost direccion carga) (env_post E direccion carga).

Definition conexion_cursor : M unit := llamar EvCursor (env_cursor E).

Definition cursor_execute (consulta : string) (params : list valor) : M unit :=
  llamar (EvExecute consulta params) (env_execute E consulta params).

Definition cursor_fetchall : M (option (list valor)) :=
  llamar EvFetchall (env_fetchall E).

Notation "x <- m ;; k" := (bind m (fun x => k))
  (at level 61, m at next level, right associativity).
Notation "m ;;; k" := (bind m (fun _ => k))
  (at level 61, right associativity).

(* ===================================================================== *)
(** ** The program *)
(* ===================================================================== *)

Definition URL_BASE_LM : string := "http://192.168.1.60:1234/v1".
Definition NOMBRE_MODELO : string := "gemma-3-12b-it-qat".

(** [s.rstrip("/")] *)
Fixpoint rstrip_barra (s : string) : string :=
  match s with
  | "" => ""
  | String c s' =>
      match rstrip_barra s' with
      | "" => if Ascii.eqb c "/"%char then "" else String c ""
      | r => String c r
      end
  end.

(** [class ModeloRemoto] *)
Record ModeloRemoto : Type := { url_base : string; nombre_modelo : string }.

(** [ModeloRemoto.__init__] *)
Definition ModeloRemoto_init (url_base nombre_modelo : string) : ModeloRemoto :=
  {| url_base := rstrip_barra url_base; nombre_modelo := nombre_modelo |}.

Definition MSG_TIMEOUT : string :=
  "Error: Tiempo de espera excedido al consultar el modelo remoto.".

Definition MSG_ERROR_MODELO : string := "Error al consultar el modelo remoto: ".

(** The request body [carga] of [generar_respuesta]. *)
Definition carga_de (self : ModeloRemoto) (mensajes : list Mensaje)
    (temperatura top_p : QArith_base.Q) (max_tokens : Z) : Carga :=
  {| model := nombre_modelo self;
     messages := mensajes;
     temperature := temperatura;
     top_p := top_p;
     max_tokens := max_tokens |}.

(** The endpoint [f"{self.url_base}/chat/completions"]. *)
Definition direccion_chat (self : ModeloRemoto) : string :=
  url_base self ++ "/chat/completions".

(** The body of the [try] of [generar_respuesta]: post, check the status,
    decode the body. *)
Definition solicitar (self : ModeloRemoto) (carga : Carga) : M json :=
  respuesta <- requests_post (direccion_chat self) carga ;;
  puro (raise_for_status respuesta) ;;;
  puro (cuerpo respuesta).

(** [ModeloRemoto.generar_respuesta] *)
Definition generar_respuesta (self : ModeloRemoto) (mensajes : list Mensaje)
    (temperatura top_p : QArith_base.Q) (max_tokens : Z) : M json :=
  let carga := carga_de self mensajes temperatura top_p max_tokens in
  try_except (solicitar self carga)
    (fun e =>
       if es_Timeout (clase e) then
         Some (ret (respuesta_sintetica MSG_TIMEOUT))
       else if es_RequestException (clase e) then
         Some (ret (respuesta_sintetica (MSG_ERROR_MODELO ++ mensaje e)))
       else None).

Definition CONSULTA_TABLAS : string :=
  "SELECT table_name FROM information_schema.tables".

Definition CONSULTA_COLUMNAS : string :=
  "SELECT column_name, data_type FROM information_schema.columns WHERE table_name = %s;".

(** The inner [for columna, tipo_dato in cursor.fetchall()] of
    [obtener_descripcion_esquema]. *)
Fixpoint describir_columnas (columnas : list valor) (descripcion : string)
  : resultado_de string :=
  match columnas with
  | [] => inr descripcion
  | fila :: resto =>
      ligar (desempaquetar 2 fila) (fun par =>
        match par with
        | [columna; tipo_dato] =>
            describir_columnas resto
              (descripcion ++ "  - " ++ PyRepr.str columna
                 ++ " (" ++ PyRepr.str tipo_dato ++ ")" ++ NL)
        | _ => inl (Exc ValueError "too many values to unpack (expected 2)")
        end)
  end.

(** [for x in r] over what [fetchall] returned. *)
Definition filas_de (r : option (list valor)) : resultado_de (list valor) :=
  match r with
  | Some filas => inr filas
  | None => inl (Exc TypeError "'NoneType' object is not iterable")
  end.

(** The outer [for (tabla,) in tablas] of [obtener_descripcion_esquema]. *)
Fixpoint describir_tablas (tablas : list valor) (descripcion : string) : M string :=
  match tablas with
  | [] => ret descripcion
  | fila :: resto =>
      uno <- puro (desempaquetar 1 fila) ;;
      match uno with
      | [tabla] =>
          let descripcion :=
            descripcion ++ "Tabla: " ++ PyRepr.str tabla ++ NL ++ "Columnas:" ++ NL in
          cursor_execute CONSULTA_COLUMNAS [tabla] ;;;
          r <- cursor_fetchall ;;
          columnas <- puro (filas_de r) ;;
          descripcion <- puro (describir_columnas columnas descripcion) ;;
          describir_tablas resto (descripcion ++ NL)
      | _ => puro (inl (Exc ValueError "too many values to unpack (expected 1)"))
      end
  end.

(** [obtener_descripcion_esquema(conexion, base_datos)] *)
Definition obtener_descripcion_esquema (base_datos : string) : M string :=
  conexion_cursor ;;;
  cursor_execute CONSULTA_TABLAS [] ;;;
  r <- cursor_fetchall ;;
  let descripcion := "Esquema de " ++ base_datos ++ ":" ++ NL in
  tablas <- puro (filas_de r) ;;
  describir_tablas tablas descripcion.

(** One character given by its code point. *)
Definition chr (n : nat) : string := String (ascii_of_nat n) "".

(** The receiver of [.strip()] in [generar_sql] is a decoded JSON value:
    only a [str] has the method. *)
Definition receptor_strip (j : json) : resultado_de string :=
  match j with
  | JStr s => inr s
  | _ => inl (Exc AttributeError
                ("'" ++ tipo_json j ++ "' object has no attribute 'strip'"))
  end.

(** [mensajes] of [generar_sql] *)
Definition mensajes_sql (esquema pregunta : string) : list Mensaje :=
  [ {| role := "system";
       content := "You are an expert in SQL and MySQL." |};
    {| role := "user";
       content :=
         "Given the following schema:" ++ NL ++ esquema
         ++ (NL ++ NL ++ "Generate an SQL query to answer the question: "
             ++ pregunta ++ ". "
             ++ "Use only the available tables and columns and return only the query, without any formatting.") |} ].

(** [generar_sql(esquema, pregunta, modelo)] *)
Definition generar_sql (esquema pregunta : string) (modelo : ModeloRemoto) : M string :=
  let mensajes := mensajes_sql esquema pregunta in
  respuesta <- generar_respuesta modelo mensajes (QArith_base.Qmake 1 10)
                 (QArith_base.Qmake 9 10) 4096 ;;
  texto <- puro (contenido respuesta) ;;
  s <- puro (receptor_strip texto) ;;
  ret (extraer_sql s).

Definition MSG_SIN_RESULTADOS : string := "No se encontraron resultados.".
Definition MSG_NO_SELECT : string := "La consulta SQL debe ser un SELECT.".
Definition MSG_ERROR_SQL : string := "Error al ejecutar la consulta SQL: ".

(** [consulta.strip().lower().startswith("select")] *)
Definition es_select (consulta : string) : bool :=
  PyStr.startswith (PyStr.lower (PyStr.strip consulta)) "select".

(** [ejecutar_sql(conexion, consulta)] *)
Definition ejecutar_sql (consulta : string) : M (list valor) :=
  conexion_cursor ;;;
  try_except
    (cursor_execute consulta [] ;;;
     if es_select consulta then
       resultado <- cursor_fetchall ;;
       match resultado with
       | None | Some [] => ret [VStr MSG_SIN_RESULTADOS]
       | Some filas => ret filas
       end
     else ret [VStr MSG_NO_SELECT])
    (fun e =>
       if es_Exception (clase e) then
         Some (ret [VStr (MSG_ERROR_SQL ++ mensaje e)])
       else None).

(** The list comprehension of [formatear_resultado]: one numbered line per
    row, the index starting at [i]. *)
Fixpoint lineas (i : nat) (resultado : list valor) : resultado_de (list string) :=
  match resultado with
  | [] => inr []
  | fila :: resto =>
      ligar (iterar fila) (fun vs =>
      ligar (lineas (S i) resto) (fun ls =>
      inr ((PyRepr.str_nat (i + 1) ++ ". " ++ String.concat ", " (map PyRepr.str vs)) :: ls)))
  end.

(** [formatear_resultado(resultado)].  The source returns [resultado[0]]
    itself when the list has one element, whatever its type. *)
Definition formatear_resultado (resultado : list valor) : resultado_de valor :=
  if (List.length resultado =? 1)%nat then
    match resultado with
    | v :: _ => inr v
    | [] => inl (Exc IndexError "list index out of range")
    end
  else
    ligar (lineas 0 resultado) (fun ls => inr (VStr (String.concat NL ls))).

(** [re.sub] and [str.strip] want a [str]. *)
Definition como_str (j : json) : resultado_de string :=
  match j with
  | JStr s => inr s
  | _ => inl (Exc TypeError
                ("expected string or bytes-like object, got '" ++ tipo_json j ++ "'"))
  end.

(** [mensajes] of [generar_respuesta_natural] *)
Definition mensajes_respuesta (pregunta : string) (resultado : valor) : list Mensaje :=
  [ {| role := "system";
       content :=
         "Responde en espa" ++ chr 241 ++ "ol usando solo la informaci" ++ chr 243
         ++ "n de 'Datos' y 'Pregunta'. "
         ++ "No menciones SQL ni tablas. S" ++ chr 233
         ++ " claro y conciso. Sin Markdown." |};
    {| role := "user";
       content := "Pregunta: " ++ pregunta ++ NL ++ "Datos: " ++ PyRepr.str resultado |} ].

(** [generar_respuesta_natural(pregunta, resultado, modelo)] *)
Definition generar_respuesta_natural (pregunta : string) (resultado : valor)
    (modelo : ModeloRemoto) : M string :=
  let mensajes := mensajes_respuesta pregunta resultado in
  respuesta <- generar_respuesta modelo mensajes (QArith_base.Qmake 3 10)
                 (QArith_base.Qmake 9 10) 4096 ;;
  texto <- puro (contenido respuesta) ;;
  s <- puro (como_str texto) ;;
  ret (limpiar_markdown s).

(** How one pass through the body of [while True] ends. *)
Inductive control : Type := Break | Continue.

Definition PROMPT : string := "Introduce tu pregunta (o 'exit'): ".
Definition MSG_VACIA : string := "Pregunta vac" ++ chr 237 ++ "a.".

Definition texto_sql (sql : string) : string :=
  NL ++ "SQL Generado:" ++ NL ++ sql ++ NL.
Definition texto_resultado (resultado : valor) : string :=
  "Resultado:" ++ NL ++ PyRepr.str resultado ++ NL.
Definition texto_respuesta (respuesta : string) : string :=
  "Respuesta:" ++ NL ++ respuesta ++ NL.

(** The body of the [while True] of [main]. *)
Definition ciclo (esquema : string) (modelo : ModeloRemoto) : M control :=
  linea <- input PROMPT ;;
  let pregunta := PyStr.strip linea in
  if String.eqb (PyStr.lower pregunta) "exit" then ret Break
  else if String.eqb pregunta "" then
    print MSG_VACIA ;;; ret Continue
  else
    sql <- generar_sql esquema pregunta modelo ;;
    if String.eqb sql "" then ret Continue
    else
      print (texto_sql sql) ;;;
      filas <- ejecutar_sql sql ;;
      resultado <- puro (formatear_resultado filas) ;;
      print (texto_resultado resultado) ;;;
      respuesta <- generar_respuesta_natural pregunta resultado modelo ;;
      print (texto_respuesta respuesta) ;;;
      ret Continue.

(** [while True], for at most [n] passes: [true] when the loop was left by
    [break], [false] when it is still running after [n] passes. *)
Fixpoint bucle (n : nat) (esquema : string) (modelo : ModeloRemoto) : M bool :=
  match n with
  | O => ret false
  | S n' =>
      c <- ciclo esquema modelo ;;
      match c with
      | Break => ret true
      | Continue => bucle n' esquema modelo
      end
  end.

(** [main], once the configuration is read and the connection is open
    (both are done by external collaborators); [base_datos] is
    [config_bd['database']]. *)
Definition main (base_datos : string) (n : nat) : M bool :=
  esquema <- obtener_descripcion_esquema base_datos ;;
  print ("Esquema cargado con " ++ chr 233 ++ "xito.") ;;;
  let modelo := ModeloRemoto_init URL_BASE_LM NOMBRE_MODELO in
  print ("Modelo cargado con " ++ chr 233 ++ "xito.") ;;;
  bucle n esquema modelo.

End Programa.

Arguments Mundo : clear implicits.
Arguments M : clear implicits.

(* ===================================================================== *)
(** ** A simulated environment *)
(* ===================================================================== *)

(** A small, executable outside world, used to run the program on concrete
    inputs: a console with the lines still to be typed, a network with the
    outcomes of the requests still to be made, and a database with a
    catalogue, one table [users] and the result set held by the cursor. *)
Module Sim.

Record t : Type := {
  entrada : list string;
  red : list (resultado_de Respuesta);
  catalogo : list (string * list (string * string));
  users : list valor;
  pendiente : option (list valor)
}.

Definition con_pendiente (p : option (list valor)) (s : t) : t :=
  {| entrada := entrada s; red := red s; catalogo := catalogo s;
     users := users s; pendiente := p |}.

Definition input (_ : string) (s : t) : t * resultado_de string :=
  match entrada s with
  | [] => (s, inl (Exc EOFError "EOF when reading a line"))
  | l :: ls =>
      ({| entrada := ls; red := red s; catalogo := catalogo s;
          users := users s; pendiente := pendiente s |}, inr l)
  end.

Definition post (_ : string) (_ : Carga) (s : t) : t * resultado_de Respuesta :=
  match red s with
  | [] => (s, inl (Exc ConnectionError "Connection refused"))
  | r :: rs =>
      ({| entrada := entrada s; red := rs; catalogo := catalogo s;
          users := users s; pendiente := pendiente s |}, r)
  end.

Definition cursor (s : t) : t * resultado_de unit :=
  (con_pendiente None s, inr tt).

Definition fila_tabla (t : string * list (string * string)) : valor :=
  VTuple [VStr (fst t)].

Definition fila_columna (c : string * string) : valor :=
  VTuple [VStr (fst c); VStr (snd c)].

(** The columns of every catalogue entry named [t]: the query of the
    program filters by table name only. *)
Fixpoint columnas_de (t : string) (cat : list (string * list (string * string)))
  : list (string * string) :=
  match cat with
  | [] => []
  | (t', cols) :: resto =>
      if String.eqb t' t then (cols ++ columnas_de t resto)%list
      else columnas_de t resto
  end.

Definition execute (consulta : string) (params : list valor) (s : t)
  : t * resultado_de unit :=
  if String.eqb consulta CONSULTA_TABLAS then
    (con_pendiente (Some (map fila_tabla (catalogo s))) s, inr tt)
  else if String.eqb consulta CONSULTA_COLUMNAS then
    match params with
    | [VStr t] =>
        (con_pendiente (Some (map fila_columna (columnas_de t (catalogo s)))) s, inr tt)
    | _ => (s, inl (Exc DatabaseError "Not all parameters were used in the SQL statement"))
    end
  else if String.eqb consulta "SELECT COUNT(*) FROM users;" then
    (con_pendiente (Some [VTuple [VInt (Z.of_nat (List.length (users s)))]]) s, inr tt)
  else if String.eqb consulta "SELECT * FROM users;" then
    (con_pendiente (Some (users s)) s, inr tt)
  else if String.eqb consulta "DELETE FROM users;" then
    ({| entrada := entrada s; red := red s; catalogo := catalogo s;
        users := []; pendiente := None |}, inr tt)
  else
    (s, inl (Exc DatabaseError "1064 (42000): You have an error in your SQL syntax")).

Definition fetchall (s : t) : t * resultado_de (option (list valor)) :=
  match pendiente s with
  | Some filas => (con_pendiente None s, inr (Some filas))
  | None => (s, inl (Exc DatabaseError "No result set to fetch from."))
  end.

Definition entorno : Entorno :=
  {| estado := t;
     env_input := input;
     env_post := post;
     env_cursor := cursor;
     env_execute := execute;
     env_fetchall := fetchall |}.

(** The world at the start of a run. *)
Definition mundo (s : t) : Mundo entorno := @Build_Mundo entorno s [].

(** What was printed, oldest first. *)
Fixpoint impreso (t : list evento) : list string :=
  match t with
  | [] => []
  | EvPrint texto :: t' => texto :: impreso t'
  | _ :: t' => impreso t'
  end.

(** An HTTP 200 whose body decodes to a chat completion with [texto]. *)
Definition ok200 (texto : string) : resultado_de Respuesta :=
  inr {| status_code := 200; reason := "OK";
         url := "http://192.168.1.60:1234/v1/chat/completions";
         cuerpo := inr (respuesta_sintetica texto) |}.

Definition ana : valor := VTuple [VInt 1; VStr "Ana"].
Definition luis : valor := VTuple [VInt 2; VStr "Luis"].

Definition inicial : t :=
  {| entrada := []; red := [];
     catalogo := [("users", [("id", "int"); ("name", "varchar")])];
     users := [ana; luis];
     pendiente := None |}.

End Sim.

(** The trace without what was printed: the calls to the console input,
    the network and the database. *)
Fixpoint sin_prints (t : list evento) : list evento :=
  match t with
  | [] => []
  | EvPrint _ :: t' => sin_prints t'
  | ev :: t' => ev :: sin_prints t'
  end.

(** The event is a call to the chat completion service. *)
Definition es_post (ev : evento) : bool :=
  match ev with EvPost _ _ => true | _ => false end.

(** The event is a call to the database handle. *)
Definition es_bd (ev : evento) : bool :=
  match ev with EvCursor | EvExecute _ _ | EvFetchall => true | _ => false end.

(** The exception of [requests] that the [try] of [generar_respuesta]
    ends with, given what [requests.post] met: the post itself raised
    (timeout, transport error), the status is an HTTP error, or the body
    does not decode and [requests] reports it. *)
Definition fallo_http (r : resultado_de Respuesta) : option excepcion :=
  match r with
  | inl e => if es_RequestException (clase e) then Some e else None
  | inr resp =>
      match raise_for_status resp with
      | inl e => Some e
      | inr _ =>
          match cuerpo resp with
          | inl e => if es_RequestException (clase e) then Some e else None
          | inr _ => None
          end
      end
  end.

(** What the [except] clauses of [generar_respuesta] answer to an
    exception of [requests]. *)
Definition texto_de_error (e : excepcion) : string :=
  if es_Timeout (clase e) then MSG_TIMEOUT else MSG_ERROR_MODELO ++ mensaje e.

(** The header line of the schema description. *)
Definition encabezado (base_datos : string) : string :=
  "Esquema de " ++ base_datos ++ ":" ++ NL.

(** The rendering of the schema as the specification words it: a header
    line with the database name; for each table a sub-header (the table,
    then [Columnas:]), one indented bullet [name (type)] per column, and
    a blank line. *)
Definition linea (s : string) : string := s ++ NL.

Definition vineta (c : string * string) : string :=
  "  - " ++ fst c ++ " (" ++ snd c ++ ")".

Definition bloque_tabla (cat : list (string * list (string * string))) (t : string)
  : string :=
  linea ("Tabla: " ++ t) ++ linea "Columnas:"
  ++ String.concat "" (map (fun c => linea (vineta c)) (Sim.columnas_de t cat))
  ++ linea "".

Definition descripcion_esperada (base_datos : string)
    (cat : list (string * list (string * string))) : string :=
  linea ("Esquema de " ++ base_datos ++ ":")
  ++ String.concat "" (map (fun t => bloque_tabla cat (fst t)) cat).

Definition modelo_lm : ModeloRemoto := ModeloRemoto_init URL_BASE_LM NOMBRE_MODELO.

(** The simulated world with the given lines to type and request outcomes. *)
Definition simulado (entrada : list string) (red : list (resultado_de Respuesta))
  : Mundo Sim.entorno :=
  Sim.mundo {| Sim.entrada := entrada; Sim.red := red;
               Sim.catalogo := Sim.catalogo Sim.inicial;
               Sim.users := Sim.users Sim.inicial;
               Sim.pendiente := None |}.

(** An HTTP 200 whose body decodes to the JSON document [j]. *)
Definition ok200_json (j : json) : resultado_de Respuesta :=
  inr {| status_code := 200; reason := "OK";
         url := "http://192.168.1.60:1234/v1/chat/completions";
         cuerpo := inr j |}.

(** A reply of the model with the statement inside a tagged code fence. *)
Definition respuesta_con_fence : resultado_de Respuesta :=
  Sim.ok200 ("```sql" ++ NL ++ "SELECT COUNT(*) FROM users;" ++ NL ++ "```").

(** One question, answered by the model with a fenced statement and then
    with a sentence. *)
Definition mundo_pregunta : Mundo Sim.entorno :=
  simulado ["How many users are there?"]
    [respuesta_con_fence; Sim.ok200 "Hay **2** usuarios."].

(** One question, to which the model replies with empty text. *)
Definition mundo_sql_vacio : Mundo Sim.entorno :=
  simulado ["How many users are there?"] [Sim.ok200 ""].

Definition escenario : Sim.t :=
  {| Sim.entrada := ["How many users are there?"; "   "; "Borra todo"; " EXIT "];
     Sim.red := [Sim.ok200 ("```sql" ++ NL ++ "SELECT COUNT(*) FROM users;" ++ NL ++ "```");
                 Sim.ok200 "Hay **2** usuarios.";
                 Sim.ok200 "DELETE FROM users;";
                 Sim.ok200 "No se puede."];
     Sim.catalogo := Sim.catalogo Sim.inicial;
     Sim.users := Sim.users Sim.inicial;
     Sim.pendiente := None |}.

(* ===================================================================== *)
(** ** Loading the database configuration *)
(* ===================================================================== *)

(** [repr(v)] for a decoded document: the value that [yaml.safe_load]
    returns is made of [dict] (string keys, in document order), [list],
    [str], [int], [bool] and [None], as a [json]. *)
Fixpoint repr_json (j : json) : string :=
  match j with
  | JNull => "None"
  | JBool true => "True"
  | JBool false => "False"
  | JNum z => PyRepr.str_Z z
  | JStr s => PyRepr.repr_str s
  | JArr xs => "[" ++ String.concat ", " (map repr_json xs) ++ "]"
  | JObj kvs =>
      "{" ++ String.concat ", "
               (map (fun kv : string * json => let (k, v) := kv in
                               PyRepr.repr_str k ++ ": " ++ repr_json v) kvs)
          ++ "}"
  end.

(** [str(v)] for a decoded document. *)
Definition str_json (j : json) : string :=
  match j with
  | JStr s => s
  | _ => repr_json j
  end.

(** [s.split(sep)[0]]: the text before the first [sep], the whole text
    when there is none. *)
Fixpoint antes_de (sep : ascii) (s : string) : string :=
  match s with
  | "" => ""
  | String c s' => if Ascii.eqb c sep then "" else String c (antes_de sep s')
  end.

(** The receiver of [.split(':')] in [cargar_config_bd]: only a [str] has
    the method. *)
Definition receptor_split (j : json) : resultado_de string :=
  match j with
  | JStr s => inr s
  | _ => inl (Exc AttributeError
                ("'" ++ tipo_json j ++ "' object has no attribute 'split'"))
  end.

(** The dictionary [config_bd]: [user] and [database] are whatever the
    document holds, [port] and [password] are text. *)
Record ConfigBD : Type := {
  host : string;
  port : string;
  user : json;
  password : string;
  database : json
}.

(** [cargar_config_bd(archivo)], from the document [docker_compose] that
    [yaml.safe_load] returned for the file. *)
Definition cargar_config_bd (docker_compose : json) : resultado_de ConfigBD :=
  ligar (item_clave docker_compose "services") (fun services =>
  ligar (item_clave services "mysql") (fun mysql =>
  ligar (item_clave mysql "ports") (fun puertos =>
  ligar (item_clave docker_compose "services") (fun services' =>
  ligar (item_clave services' "mysql") (fun mysql' =>
  ligar (item_clave mysql' "environment") (fun entorno =>
  ligar (item_cero puertos) (fun primero =>
  ligar (receptor_split primero) (fun mapeo =>
  ligar (item_clave entorno "MYSQL_USER") (fun usuario =>
  ligar (item_clave entorno "MYSQL_PASSWORD") (fun clave =>
  ligar (item_clave entorno "MYSQL_DATABASE") (fun base =>
  inr {| host := "localhost";
         port := antes_de ":"%char mapeo;
         user := usuario;
         password := str_json clave;
         database := base |}))))))))))).

(** A compose document with one [mysql] service. *)
Definition compose (puertos entorno : json) : json :=
  JObj [("version", JStr "3.8");
        ("services", JObj [("mysql", JObj [("image", JStr "mysql:8");
                                           ("ports", puertos);
                                           ("environment", entorno)])])].

Definition compose_ejemplo : json :=
  compose (JArr [JStr "3307:3306"])
    (JObj [("MYSQL_USER", JStr "app"); ("MYSQL_PASSWORD", JNum 1234);
           ("MYSQL_DATABASE", JStr "tienda")]).

(* ===================================================================== *)
(** ** Predicates used in the statements *)
(* ===================================================================== *)


(** The value is a tuple. *)
Definition es_tupla (v : valor) : bool :=
  match v with VTuple _ => true | _ => false end.

(** The value cannot be iterated over. *)
Definition no_iterable (v : valor) : bool :=
  match v with VNone | VInt _ => true | _ => false end.

(** Line [k] (from 0) of the numbered listing of [formatear_resultado]. *)
Definition linea_numerada (k : nat) (fila : list valor) : string :=
  PyRepr.str_nat (k + 1) ++ ". " ++ String.concat ", " (map PyRepr.str fila).

(** The text holds no backquote. *)
Definition sin_backquote (s : string) : bool := negb (PyStr.contains "`"%char s).

(** The text holds no line feed. *)
Definition sin_lf (s : string) : bool := negb (PyStr.contains PyStr.LF s).

(** The simulated state with other lines to type. *)
Definition con_entrada (entrada : list string) (s : Sim.t) : Sim.t :=
  {| Sim.entrada := entrada; Sim.red := Sim.red s; Sim.catalogo := Sim.catalogo s;
     Sim.users := Sim.users s; Sim.pendiente := Sim.pendiente s |}.

(** The world [w] after the console events [evs]. *)
Definition con_traza (evs : list evento) (w : Mundo Sim.entorno) : Mundo Sim.entorno :=
  @Build_Mundo Sim.entorno (est w) (traza w ++ evs)%list.

(** One cycle on a blank line, as events. *)
Definition eventos_blanco : list evento := [EvInput PROMPT; EvPrint MSG_VACIA].

Fixpoint repetir {A} (n : nat) (xs : list A) : list A :=
  match n with
  | O => []
  | S n' => (xs ++ repetir n' xs)%list
  end.

(** A scripted database handle: [cursor], [execute] and [fetchall] answer
    with the given outcomes, whatever the statement; there is no console
    and no network. *)
Definition entorno_guion (c x : resultado_de unit)
    (f : resultado_de (option (list valor))) : Entorno :=
  {| estado := unit;
     env_input := fun _ s => (s, inl (Exc EOFError "EOF when reading a line"));
     env_post := fun _ _ s => (s, inl (Exc ConnectionError "Connection refused"));
     env_cursor := fun s => (s, c);
     env_execute := fun _ _ s => (s, x);
     env_fetchall := fun s => (s, f) |}.

(** The world of a scripted handle at the start of a run. *)
Definition mundo_guion (c x : resultado_de unit)
    (f : resultado_de (option (list valor))) : Mundo (entorno_guion c x f) :=
  @Build_Mundo (entorno_guion c x f) tt [].

(** The classes of the exceptions raised by subscripts and by a missing
    method. *)
Definition clase_de_acceso (c : clase_exc) : bool :=
  match c with
  | KeyError | IndexError | TypeError | AttributeError => true
  | _ => false
  end.

(** How many events of a trace satisfy [p]. *)
Definition cuenta (p : evento -> bool) (t : list evento) : nat :=
  List.length (filter p t).


(** The trace [u] carries on the trace [t]: what [t] records is still
    there, in its place, and [u] may record more after it. *)
Definition prolonga (t u : list evento) : Prop := exists v, u = (t ++ v)%list.

(** One question, answered by the model with a fenced statement and then
    with a document that has no [choices]. *)
Definition mundo_segunda_mal_formada : Mundo Sim.entorno :=
  simulado ["How many users are there?"] [respuesta_con_fence; ok200_json (JObj [])].

(* ===================================================================== *)
(** * Properties *)
(* ===================================================================== *)

(** ** Facts about strings *)

Section HechosCadenas.

Lemma append_nil_r (s : string) : s ++ "" = s.
Proof. induction s as [|c s IH]; simpl; [reflexivity | now rewrite IH]. Qed.

Lemma append_assoc (a b c : string) : (a ++ b) ++ c = a ++ (b ++ c).
Proof. induction a as [|x a IH]; simpl; [reflexivity | now rewrite IH]. Qed.

Lemma length_append (a b : string) :
  String.length (a ++ b) = String.length a + String.length b.
Proof. induction a as [|x a IH]; simpl; [reflexivity | now rewrite IH]. Qed.

Lemma prefix_vacio (s : string) : prefix "" s = true.
Proof. now destruct s. Qed.

Lemma prefix_length (p s : string) :
  prefix p s = true -> String.length p <= String.length s.
Proof.
  revert p; induction s as [|c s IH]; intros [|a p]; simpl; try lia; try discriminate.
  destruct (ascii_dec a c); [|discriminate].
  intros H. apply IH in H. lia.
Qed.

Lemma length_drop (n : nat) (s : string) :
  String.length (PyStr.drop n s) = String.length s - n.
Proof.
  revert s; induction n as [|n IH]; intros [|c s]; simpl; auto.
Qed.

Lemma drop_append (n : nat) (s x : string) :
  n <= String.length s -> PyStr.drop n (s ++ x) = PyStr.drop n s ++ x.
Proof.
  revert s; induction n as [|n IH]; intros [|c s]; simpl; intros H;
    try reflexivity; try lia.
  apply IH; lia.
Qed.

Lemma length_lstrip (s : string) :
  String.length (PyStr.lstrip s) <= String.length s.
Proof.
  induction s as [|c s IH]; simpl; [lia|].
  destruct (PyStr.isspace c); simpl; lia.
Qed.

(** A pattern without whitespace sees nothing of a continuation that
    starts with whitespace. *)
Lemma prefix_append_espacio (p s x : string) :
  PyStr.sin_espacios p = true -> PyStr.empieza_con_espacio x ->
  prefix p (s ++ x) = prefix p s.
Proof.
  intros Hp Hx. revert p Hp.
  induction s as [|c s IH]; intros [|a p] Hp; simpl; try reflexivity.
  - now destruct x.
  - destruct x as [|b x]; [reflexivity|]. simpl in Hx.
    unfold PyStr.sin_espacios in Hp; simpl in Hp.
    apply andb_true_iff in Hp as [Ha _].
    simpl. destruct (ascii_dec a b) as [->|]; [|reflexivity].
    rewrite Hx in Ha; discriminate.
  - unfold PyStr.sin_espacios in Hp; simpl in Hp.
    apply andb_true_iff in Hp as [_ Hp].
    destruct (ascii_dec a c); [|reflexivity].
    now apply IH.
Qed.

Lemma lstrip_append (t y : string) :
  PyStr.lstrip (t ++ y) =
  match PyStr.lstrip t with
  | "" => PyStr.lstrip y
  | u => u ++ y
  end.
Proof.
  induction t as [|c t IH]; simpl; [reflexivity|].
  destruct (PyStr.isspace c); [exact IH | reflexivity].
Qed.

Lemma lstrip_espacios (w y : string) :
  PyStr.all PyStr.isspace w = true -> PyStr.lstrip (w ++ y) = PyStr.lstrip y.
Proof.
  induction w as [|c w IH]; simpl; [reflexivity|].
  intros H. apply andb_true_iff in H as [Hc Hw]. rewrite Hc. now apply IH.
Qed.

(** [rstrip] leaves a text alone exactly when it is empty or ends with a
    character that is not whitespace; the tails of such a text are of the
    same kind. *)
Lemma rstrip_fijo_cola (c : ascii) (s : string) :
  PyStr.rstrip (String c s) = String c s -> PyStr.rstrip s = s.
Proof.
  simpl. destruct (PyStr.rstrip s) as [|a r] eqn:Hr.
  - destruct (PyStr.isspace c); [discriminate|]. now intros [= <-].
  - now intros [= <-].
Qed.

Lemma rstrip_fijo_lstrip (s : string) :
  PyStr.rstrip s = s -> PyStr.rstrip (PyStr.lstrip s) = PyStr.lstrip s.
Proof.
  induction s as [|c s IH]; intros H; [reflexivity|].
  simpl PyStr.lstrip. destruct (PyStr.isspace c); [|exact H].
  apply IH. eapply rstrip_fijo_cola; eauto.
Qed.

Lemma rstrip_fijo_drop (n : nat) (s : string) :
  PyStr.rstrip s = s -> PyStr.rstrip (PyStr.drop n s) = PyStr.drop n s.
Proof.
  revert s; induction n as [|n IH]; intros [|c s] H; simpl PyStr.drop; auto.
  apply IH. eapply rstrip_fijo_cola; eauto.
Qed.

Lemma rstrip_fijo_lstrip_no_vacio (s : string) :
  PyStr.rstrip s = s -> s <> "" -> PyStr.lstrip s <> "".
Proof.
  induction s as [|c s IH]; intros H Hne; [congruence|].
  simpl PyStr.lstrip. destruct (PyStr.isspace c) eqn:Hc; [|discriminate].
  apply IH.
  - eapply rstrip_fijo_cola; eauto.
  - intros ->. simpl in H. rewrite Hc in H. discriminate.
Qed.

Lemma rstrip_idempotente (s : string) :
  PyStr.rstrip (PyStr.rstrip s) = PyStr.rstrip s.
Proof.
  induction s as [|c s IH]; [reflexivity|].
  simpl. destruct (PyStr.rstrip s) as [|a r] eqn:Hr.
  - destruct (PyStr.isspace c) eqn:Hc; [reflexivity|]. simpl. now rewrite Hc.
  - change (PyStr.rstrip (String c (String a r)) = String c (String a r)).
    simpl. simpl in IH. destruct (PyStr.rstrip r); [|now rewrite IH].
    now rewrite IH.
Qed.

(** A text is its right-stripped form followed by whitespace. *)
Lemma rstrip_descompone (u : string) :
  exists w, PyStr.all PyStr.isspace w = true /\ u = PyStr.rstrip u ++ w.
Proof.
  induction u as [|c u (w & Hw & Hu)]; [now exists ""|].
  simpl. destruct (PyStr.rstrip u) as [|a r] eqn:Hr.
  - destruct (PyStr.isspace c) eqn:Hc.
    + exists (String c w). simpl. rewrite Hc, Hw. simpl in Hu. now subst.
    + exists w. simpl in *. now subst.
  - exists w. split; [assumption|]. simpl in Hu |- *. now rewrite <- Hu.
Qed.

Lemma rstrip_append_fijo (a b : string) :
  PyStr.rstrip b = b -> b <> "" -> PyStr.rstrip (a ++ b) = a ++ b.
Proof.
  intros Hb Hne. induction a as [|c a IH]; simpl; [assumption|].
  rewrite IH. destruct (a ++ b) eqn:Hab; [|reflexivity].
  destruct a; simpl in Hab; [contradiction | discriminate].
Qed.

Lemma lstrip_rstrip_fijo (u : string) :
  PyStr.lstrip u = u -> PyStr.lstrip (PyStr.rstrip u) = PyStr.rstrip u.
Proof.
  destruct u as [|c u]; [reflexivity|].
  simpl. destruct (PyStr.isspace c) eqn:Hc.
  - intros H. pose proof (length_lstrip u) as Hl. rewrite H in Hl. simpl in Hl. lia.
  - intros _. destruct (PyStr.rstrip u); simpl; now rewrite Hc.
Qed.

Lemma lstrip_idempotente (s : string) :
  PyStr.lstrip (PyStr.lstrip s) = PyStr.lstrip s.
Proof.
  induction s as [|c s IH]; [reflexivity|].
  simpl. destruct (PyStr.isspace c) eqn:Hc; [assumption|]. simpl. now rewrite Hc.
Qed.

Lemma strip_idempotente (s : string) :
  PyStr.strip (PyStr.strip s) = PyStr.strip s.
Proof.
  unfold PyStr.strip.
  rewrite (lstrip_rstrip_fijo (PyStr.lstrip s) (lstrip_idempotente s)).
  apply rstrip_idempotente.
Qed.

End HechosCadenas.

(** ** The fence pattern *)

Section Fences.

Lemma match_fence_acorta (s r : string) :
  Re.match_fence s = Some r -> String.length r < String.length s.
Proof.
  unfold Re.match_fence.
  destruct (prefix "```sql" s) eqn:H1.
  - intros H. assert (r = PyStr.lstrip (PyStr.drop 6 s)) as -> by congruence.
    apply prefix_length in H1. simpl in H1.
    pose proof (length_lstrip (PyStr.drop 6 s)) as H2.
    rewrite length_drop in H2. lia.
  - destruct (prefix "```" (PyStr.lstrip s)) eqn:H2; [|discriminate].
    intros H. assert (r = PyStr.drop 3 (PyStr.lstrip s)) as -> by congruence.
    apply prefix_length in H2. simpl in H2.
    pose proof (length_lstrip s) as H3.
    rewrite length_drop. lia.
Qed.

Lemma match_fence_vacio : Re.match_fence "" = None.
Proof. reflexivity. Qed.

(** The bound of the scan does not matter once it covers the text. *)
Lemma sub_fence_aux_cota (n m : nat) (s : string) :
  String.length s <= n -> String.length s <= m ->
  Re.sub_fence_aux n s = Re.sub_fence_aux m s.
Proof.
  revert m s. induction n as [|n IH]; intros [|m] s Hn Hm.
  - reflexivity.
  - destruct s; [reflexivity | simpl in Hn; lia].
  - destruct s; [reflexivity | simpl in Hm; lia].
  - simpl. destruct (Re.match_fence s) as [r|] eqn:Hr.
    + apply match_fence_acorta in Hr. apply IH; lia.
    + destruct s as [|c s]; [reflexivity|]. simpl in Hn, Hm.
      f_equal. apply IH; lia.
Qed.

(** [re.sub] at the head of the text: skip a match, or copy a character. *)
Lemma sub_fence_paso (s : string) :
  Re.sub_fence s =
  match Re.match_fence s with
  | Some r => Re.sub_fence r
  | None =>
      match s with
      | "" => ""
      | String c s' => String c (Re.sub_fence s')
      end
  end.
Proof.
  unfold Re.sub_fence at 1. destruct s as [|c s]; [reflexivity|].
  cbn [String.length Re.sub_fence_aux].
  destruct (Re.match_fence (String c s)) as [r|] eqn:Hr.
  - apply match_fence_acorta in Hr. simpl in Hr.
    apply sub_fence_aux_cota; lia.
  - reflexivity.
Qed.

Lemma sin_espacios_fence_sql : PyStr.sin_espacios "```sql" = true.
Proof. reflexivity. Qed.

Lemma sin_espacios_fence : PyStr.sin_espacios "```" = true.
Proof. reflexivity. Qed.

Lemma sub_fence_solo_cierre : Re.sub_fence "```" = "".
Proof. reflexivity. Qed.

(** A closing fence after the text, separated from it by whitespace, is
    removed together with that whitespace, and the scan of the text before
    it is not disturbed. *)
Lemma sub_fence_cierre (s w : string) :
  PyStr.rstrip s = s -> PyStr.all PyStr.isspace w = true -> w <> "" ->
  Re.sub_fence (s ++ w ++ "```") = Re.sub_fence s.
Proof.
  intros Hs Hw Hne.
  assert (Hx : PyStr.empieza_con_espacio (w ++ "```")).
  { destruct w as [|b w]; [contradiction|]. simpl in *.
    now apply andb_true_iff in Hw as [Hb _]. }
  assert (Hl : PyStr.lstrip (w ++ "```") = "```").
  { now rewrite lstrip_espacios. }
  remember (String.length s) as n eqn:Hn.
  revert s Hs Hn. induction n as [n IH] using lt_wf_ind. intros s Hs Hn.
  rewrite (sub_fence_paso (s ++ _)), (sub_fence_paso s).
  unfold Re.match_fence.
  rewrite (prefix_append_espacio _ _ _ sin_espacios_fence_sql Hx).
  destruct (prefix "```sql" s) eqn:H1.
  - (* the text opens with a tagged fence *)
    pose proof (prefix_length _ _ H1) as H6. simpl in H6.
    rewrite drop_append by exact H6.
    rewrite lstrip_append.
    destruct (PyStr.lstrip (PyStr.drop 6 s)) as [|a u] eqn:Hu.
    + rewrite Hl. reflexivity.
    + rewrite <- Hu. eapply IH; [ | | reflexivity].
      * pose proof (length_lstrip (PyStr.drop 6 s)) as H.
        rewrite length_drop in H. lia.
      * apply rstrip_fijo_lstrip, rstrip_fijo_drop, Hs.
  - destruct s as [|c s].
    + (* nothing is left but the whitespace and the fence *)
      simpl. rewrite Hl. reflexivity.
    + rewrite lstrip_append.
      pose proof (rstrip_fijo_lstrip_no_vacio _ Hs ltac:(discriminate)) as Hne'.
      destruct (PyStr.lstrip (String c s)) as [|a u] eqn:Hu; [congruence|].
      rewrite (prefix_append_espacio _ _ _ sin_espacios_fence Hx).
      destruct (prefix "```" (String a u)) eqn:H3.
      * pose proof (prefix_length _ _ H3) as H3'. simpl in H3'.
        rewrite drop_append by exact H3'.
        eapply IH; [ | | reflexivity].
        -- pose proof (length_lstrip (String c s)) as H. rewrite Hu in H.
           rewrite length_drop. simpl in *. lia.
        -- apply rstrip_fijo_drop. rewrite <- Hu. now apply rstrip_fijo_lstrip.
      * simpl. f_equal. eapply IH; [ | | reflexivity].
        -- simpl in Hn. lia.
        -- eapply rstrip_fijo_cola; eauto.
Qed.

Lemma all_isspace_append (w v : string) :
  PyStr.all PyStr.isspace w = true -> PyStr.all PyStr.isspace v = true ->
  PyStr.all PyStr.isspace (w ++ v) = true.
Proof.
  intros Hw Hv. induction w as [|b w IH]; [assumption|].
  simpl in *. apply andb_true_iff in Hw as [Hb Hw]. rewrite Hb. now apply IH.
Qed.

(** The round trip for any whitespace between the fence markers and the
    reply, as long as the closing marker does not touch the reply. *)
Lemma extraer_sql_fences_espacios (r w1 w2 : string) :
  PyStr.all PyStr.isspace w1 = true -> PyStr.all PyStr.isspace w2 = true ->
  w2 <> "" ->
  extraer_sql ("```sql" ++ w1 ++ r ++ w2 ++ "```") = extraer_sql r.
Proof.
  intros H1 H2 Hne. unfold extraer_sql.
  assert (Hstrip : PyStr.strip ("```sql" ++ w1 ++ r ++ w2 ++ "```")
                   = "```sql" ++ w1 ++ r ++ w2 ++ "```").
  { unfold PyStr.strip.
    replace (PyStr.lstrip ("```sql" ++ w1 ++ r ++ w2 ++ "```"))
      with ("```sql" ++ w1 ++ r ++ w2 ++ "```") by reflexivity.
    rewrite <- !append_assoc.
    apply rstrip_append_fijo; [reflexivity | discriminate]. }
  rewrite Hstrip, sub_fence_paso.
  assert (Hm : Re.match_fence ("```sql" ++ w1 ++ r ++ w2 ++ "```")
               = Some (PyStr.lstrip (w1 ++ r ++ w2 ++ "```"))).
  { unfold Re.match_fence. cbn. now rewrite prefix_vacio. }
  rewrite Hm, (lstrip_espacios w1) by assumption.
  rewrite lstrip_append. unfold PyStr.strip.
  destruct (PyStr.lstrip r) as [|a u] eqn:Hu.
  - rewrite lstrip_espacios by assumption. reflexivity.
  - destruct (rstrip_descompone (String a u)) as (w & Hw & Hd).
    rewrite Hd at 1. rewrite append_assoc, <- (append_assoc w w2 "```").
    apply sub_fence_cierre.
    + apply rstrip_idempotente.
    + now apply all_isspace_append.
    + destruct w; [assumption | discriminate].
Qed.

(** C5.  Code-fence stripping round trip: for every model reply [r], the
    post-processing of [generar_sql] (strip, then remove the fence
    markers) gives the same statement for [r] wrapped in a tagged code
    fence, [```sql], line feed, [r], line feed, [```], as for [r] alone. *)
Theorem extraer_sql_fences (r : string) :
  extraer_sql ("```sql" ++ NL ++ r ++ NL ++ "```") = extraer_sql r.
Proof.
  apply extraer_sql_fences_espacios; [reflexivity | reflexivity | discriminate].
Qed.

(** Without whitespace before the closing marker the round trip can fail:
    the marker merges with backquotes of the reply. *)
Example extraer_sin_separacion :
  extraer_sql ("```sql" ++ "x`` `" ++ "```") = "x```"
  /\ extraer_sql "x`` `" = "x`` `".
Proof. split; reflexivity. Qed.

End Fences.

(** ** Markdown cleanup *)

Section Markdown.

Lemma match_delim_sin_marca (c : ascii) (d s : string) :
  PyStr.contains c s = false -> Re.match_delim (String c d) s = None.
Proof.
  unfold Re.match_delim. destruct s as [|a s]; [reflexivity|].
  simpl. intros H. apply orb_false_iff in H as [Ha _].
  destruct (ascii_dec c a) as [->|]; [|reflexivity].
  rewrite Ascii.eqb_refl in Ha. discriminate.
Qed.

(** A pattern whose first character does not occur leaves the text as it
    is. *)
Lemma sub_delim_sin_marca (c : ascii) (d s : string) :
  PyStr.contains c s = false -> Re.sub_delim (String c d) s = s.
Proof.
  unfold Re.sub_delim. generalize (String.length s) as n.
  intros n; revert s. induction n as [|n IH]; intros s H; [reflexivity|].
  simpl Re.sub_delim_aux. rewrite match_delim_sin_marca by assumption.
  destruct s as [|a s]; [reflexivity|].
  simpl in H. apply orb_false_iff in H as [_ H]. now rewrite IH.
Qed.

Lemma limpiar_markdown_sin_marcas (s : string) :
  sin_marcas s = true -> limpiar_markdown s = PyStr.strip s.
Proof.
  unfold sin_marcas, limpiar_markdown. intros H.
  apply andb_true_iff in H as [H H3]. apply andb_true_iff in H as [H1 H2].
  apply negb_true_iff in H1, H2, H3.
  simpl fold_left.
  rewrite (sub_delim_sin_marca "*" "*" s H1).
  rewrite (sub_delim_sin_marca "_" "_" s H2).
  rewrite (sub_delim_sin_marca "*" "" s H1).
  rewrite (sub_delim_sin_marca "_" "" s H2).
  rewrite (sub_delim_sin_marca "`" "" s H3).
  reflexivity.
Qed.

Lemma limpiar_markdown_estripado (t : string) :
  PyStr.strip (limpiar_markdown t) = limpiar_markdown t.
Proof. unfold limpiar_markdown. apply strip_idempotente. Qed.

(** C4, as stated, fails: two backquotes on each side lose one pair per
    application, so the second application still changes the text. *)
Lemma limpiar_markdown_no_idempotente :
  limpiar_markdown (limpiar_markdown "``a``") <> limpiar_markdown "``a``".
Proof. vm_compute. discriminate. Qed.

Example limpiar_negrita :
  limpiar_markdown "  Hay **42** usuarios en `users`. " = "Hay 42 usuarios en users.".
Proof. reflexivity. Qed.

Example limpiar_tres_asteriscos : limpiar_markdown "***a***" = "a".
Proof. reflexivity. Qed.

Example limpiar_comillas_dobles :
  limpiar_markdown "``a``" = "`a`" /\ limpiar_markdown "`a`" = "a".
Proof. split; reflexivity. Qed.

(** [.] does not cross a line feed: no emphasis spans two lines. *)
Example limpiar_dos_lineas :
  limpiar_markdown ("*a" ++ NL ++ "b*") = "*a" ++ NL ++ "b*".
Proof. reflexivity. Qed.

Example extraer_con_fences :
  extraer_sql ("```sql" ++ NL ++ "SELECT COUNT(*) FROM users;" ++ NL ++ "```")
  = "SELECT COUNT(*) FROM users;".
Proof. reflexivity. Qed.

End Markdown.

(** ** The result formatter *)

Section Formato.

Lemma formatear_resultado_unico (v : valor) : formatear_resultado [v] = inr v.
Proof. reflexivity. Qed.

(** C2 at the input [[(42,)]]: the formatter hands back the row itself, a
    tuple that prints as [(42,)], and not the text [42]. *)
Theorem formatear_resultado_fila_unica :
  formatear_resultado [VTuple [VInt 42]] = inr (VTuple [VInt 42])
  /\ formatear_resultado [VTuple [VInt 42]] <> inr (VStr "42")
  /\ texto_resultado (VTuple [VInt 42]) = "Resultado:" ++ NL ++ "(42,)" ++ NL.
Proof. repeat split; [discriminate]. Qed.

Example formatear_varias_filas :
  formatear_resultado [Sim.ana; Sim.luis]
  = inr (VStr ("1. 1, Ana" ++ NL ++ "2. 2, Luis")).
Proof. reflexivity. Qed.

Example formatear_mensaje :
  formatear_resultado [VStr MSG_NO_SELECT] = inr (VStr MSG_NO_SELECT).
Proof. reflexivity. Qed.

End Formato.

(** ** The query executor *)

Section Ejecutor.

Context {E : Entorno}.

Ltac desplegar :=
  unfold ejecutar_sql, bind, try_except, conexion_cursor, cursor_execute,
    cursor_fetchall, llamar, ret, puro.

(** Whatever the statement, [ejecutar_sql] passes it to [cursor.execute]
    before it looks at its first word: the world after the call is the one
    in which the statement has run. *)
Lemma ejecutar_sql_no_select (w : Mundo E) (consulta : string)
    (s1 s2 : estado E) (r : resultado_de unit) :
  es_select consulta = false ->
  env_cursor E (est w) = (s1, inr tt) ->
  env_execute E consulta [] s1 = (s2, r) ->
  fst (ejecutar_sql consulta w)
  = anotar (EvExecute consulta []) s2 (anotar EvCursor s1 w)
  /\ (r = inr tt -> snd (ejecutar_sql consulta w) = inr [VStr MSG_NO_SELECT]).
Proof.
  intros Hsel Hc He. desplegar. rewrite Hc. cbn [est anotar].
  rewrite He, Hsel. destruct r as [e|[]].
  - split; [|discriminate]. now destruct (es_Exception (clase e)).
  - now split.
Qed.

(** C1 at the input [DELETE FROM users;], against a database whose table
    [users] holds two rows: the caller gets the rejection sentinel, but the
    statement was handed to the cursor and the rows are gone. *)
Theorem ejecutar_sql_delete_se_ejecuta :
  es_select "DELETE FROM users;" = false
  /\ Sim.users Sim.inicial = [Sim.ana; Sim.luis]
  /\ snd (ejecutar_sql "DELETE FROM users;" (Sim.mundo Sim.inicial))
     = inr [VStr MSG_NO_SELECT]
  /\ traza (fst (ejecutar_sql "DELETE FROM users;" (Sim.mundo Sim.inicial)))
     = [EvCursor; EvExecute "DELETE FROM users;" []]
  /\ Sim.users (est (fst (ejecutar_sql "DELETE FROM users;" (Sim.mundo Sim.inicial))))
     = [].
Proof. repeat split. Qed.

(** C6, amended.  For a statement that the read-only gate accepts, once
    [conexion.cursor()] has returned: an error (an [Exception]) raised by
    [execute] or by [fetchall] is caught and comes back as a one-element
    list with the error text; zero rows come back as the no-results
    sentinel; one or more rows come back as they are.  In each of these
    cases [ejecutar_sql] returns and does not raise. *)
Theorem ejecutar_sql_select (w : Mundo E) (consulta : string) (s1 : estado E) :
  es_select consulta = true ->
  env_cursor E (est w) = (s1, inr tt) ->
  (forall s2 e,
      env_execute E consulta [] s1 = (s2, inl e) ->
      es_Exception (clase e) = true ->
      snd (ejecutar_sql consulta w) = inr [VStr (MSG_ERROR_SQL ++ mensaje e)])
  /\ (forall s2 s3 e,
      env_execute E consulta [] s1 = (s2, inr tt) ->
      env_fetchall E s2 = (s3, inl e) ->
      es_Exception (clase e) = true ->
      snd (ejecutar_sql consulta w) = inr [VStr (MSG_ERROR_SQL ++ mensaje e)])
  /\ (forall s2 s3 filas,
      env_execute E consulta [] s1 = (s2, inr tt) ->
      env_fetchall E s2 = (s3, inr filas) ->
      filas = None \/ filas = Some [] ->
      snd (ejecutar_sql consulta w) = inr [VStr MSG_SIN_RESULTADOS])
  /\ (forall s2 s3 fila filas,
      env_execute E consulta [] s1 = (s2, inr tt) ->
      env_fetchall E s2 = (s3, inr (Some (fila :: filas))) ->
      snd (ejecutar_sql consulta w) = inr (fila :: filas)).
Proof.
  intros Hsel Hc. repeat split.
  - intros s2 e He Hx. desplegar. rewrite Hc. cbn [est anotar].
    now rewrite He, Hx.
  - intros s2 s3 e He Hf Hx. desplegar. rewrite Hc. cbn [est anotar].
    rewrite He, Hsel. cbn [est anotar]. now rewrite Hf, Hx.
  - intros s2 s3 filas He Hf Hz. desplegar. rewrite Hc. cbn [est anotar].
    rewrite He, Hsel. cbn [est anotar]. rewrite Hf.
    now destruct Hz as [-> | ->].
  - intros s2 s3 fila filas He Hf. desplegar. rewrite Hc. cbn [est anotar].
    rewrite He, Hsel. cbn [est anotar]. now rewrite Hf.
Qed.

(** [ejecutar_sql] never hands back an empty list: zero rows are replaced
    by the no-results sentinel. *)
Lemma ejecutar_sql_no_vacio (w : Mundo E) (consulta : string) :
  snd (ejecutar_sql consulta w) <> inr [].
Proof.
  desplegar.
  destruct (env_cursor E (est w)) as [s1 [e|[]]]; [discriminate|].
  cbn [est anotar].
  destruct (env_execute E consulta [] s1) as [s2 [e|[]]].
  - destruct (es_Exception (clase e)); discriminate.
  - destruct (es_select consulta); [|discriminate].
    cbn [est anotar].
    destruct (env_fetchall E s2) as [s3 [e|[[|fila filas]|]]]; try discriminate.
    destruct (es_Exception (clase e)); discriminate.
Qed.

End Ejecutor.

(** C10.  For the empty result sequence the formatter returns the empty
    string: the branch for several rows joins zero lines.  The one caller
    of the formatter, the loop of [main], passes it what [ejecutar_sql]
    returned, and that is never the empty sequence. *)
Theorem formatear_resultado_vacio :
  formatear_resultado [] = inr (VStr "")
  /\ forall (E : Entorno) (w : Mundo E) (consulta : string),
       snd (ejecutar_sql consulta w) <> inr [].
Proof.
  split; [reflexivity|]. intros E w consulta. apply ejecutar_sql_no_vacio.
Qed.

Lemma ejecutar_sql_select_witness :
  es_select "SELECT * FROM users;" = true
  /\ snd (ejecutar_sql "SELECT * FROM users;" (Sim.mundo Sim.inicial))
     = inr [Sim.ana; Sim.luis]
  /\ snd (ejecutar_sql "select nada" (Sim.mundo Sim.inicial))
     = inr [VStr (MSG_ERROR_SQL ++ "1064 (42000): You have an error in your SQL syntax")].
Proof.
  split; [reflexivity|]. split.
  - refine (proj2 (proj2 (proj2
      (@ejecutar_sql_select Sim.entorno (Sim.mundo Sim.inicial) "SELECT * FROM users;"
         (Sim.con_pendiente None Sim.inicial) _ _))) _ _ Sim.ana [Sim.luis] _ _);
      reflexivity.
  - refine (proj1
      (@ejecutar_sql_select Sim.entorno (Sim.mundo Sim.inicial) "select nada"
         (Sim.con_pendiente None Sim.inicial) _ _) Sim.inicial
      (Exc DatabaseError "1064 (42000): You have an error in your SQL syntax") _ _);
      reflexivity.
Defined.

(** C6, as stated, fails when [conexion.cursor()] itself raises: the call
    stands before the [try], so for a statement that passes the gate the
    exception, an [Exception] like any database error, reaches the caller
    and no sentinel is returned. *)
Lemma ejecutar_sql_cursor_propaga :
  es_select "SELECT 1" = true
  /\ es_Exception DatabaseError = true
  /\ snd (ejecutar_sql "SELECT 1"
            (mundo_guion (inl (Exc DatabaseError "MySQL Connection not available."))
               (inr tt) (inr None)))
     = inl (Exc DatabaseError "MySQL Connection not available.").
Proof. repeat split. Qed.

(** ** The chat client *)

Section ClienteChat.

Context {E : Entorno}.

Lemma raise_for_status_clase (resp : Respuesta) (e : excepcion) :
  raise_for_status resp = inl e -> clase e = HTTPError.
Proof.
  unfold raise_for_status.
  destruct ((400 <=? status_code resp)%Z && (status_code resp <? 500)%Z).
  - now intros [= <-].
  - destruct ((500 <=? status_code resp)%Z && (status_code resp <? 600)%Z);
      [now intros [= <-] | discriminate].
Qed.

Lemma contenido_sintetica (texto : string) :
  contenido (respuesta_sintetica texto) = inr (JStr texto).
Proof. reflexivity. Qed.

Lemma texto_de_error_no_vacio (e : excepcion) : texto_de_error e <> "".
Proof. unfold texto_de_error. destruct (es_Timeout (clase e)); discriminate. Qed.

Lemma solicitar_fallo (w : Mundo E) (self : ModeloRemoto) (carga : Carga)
    (s' : estado E) (r : resultado_de Respuesta) (e : excepcion) :
  env_post E (direccion_chat self) carga (est w) = (s', r) ->
  fallo_http r = Some e ->
  solicitar self carga w
  = (anotar (EvPost (direccion_chat self) carga) s' w, inl e)
  /\ es_RequestException (clase e) = true.
Proof.
  intros Hp Hf. unfold solicitar, bind, requests_post, llamar, puro.
  rewrite Hp. unfold fallo_http in Hf. destruct r as [e0|resp].
  - destruct (es_RequestException (clase e0)) eqn:Hx; [|discriminate].
    injection Hf as <-. now split.
  - destruct (raise_for_status resp) as [e1|[]] eqn:Hs.
    + injection Hf as <-. split; [reflexivity|].
      now rewrite (raise_for_status_clase _ _ Hs).
    + destruct (cuerpo resp) as [e2|j]; [|discriminate].
      destruct (es_RequestException (clase e2)) eqn:Hx; [|discriminate].
      injection Hf as <-. now split.
Qed.

(** The four failure modes of the request are failures in the sense of
    [fallo_http]: a timeout and a transport error are raised by the post,
    an HTTP error status is raised by [raise_for_status], and a body that
    is not JSON makes [json()] raise the [JSONDecodeError] of [requests]. *)
Lemma fallo_http_modos (r : resultado_de Respuesta) (e : excepcion) :
  (r = inl e /\ clase e = Timeout)
  \/ (r = inl e /\ clase e = ConnectionError)
  \/ (exists resp, r = inr resp /\ raise_for_status resp = inl e)
  \/ (exists resp, r = inr resp /\ raise_for_status resp = inr tt
                   /\ cuerpo resp = inl e /\ clase e = JSONDecodeError) ->
  fallo_http r = Some e.
Proof.
  unfold fallo_http.
  intros [[-> Hc] | [[-> Hc] | [(resp & -> & Hs) | (resp & -> & Hs & Hb & Hc)]]].
  - now rewrite Hc.
  - now rewrite Hc.
  - now rewrite Hs.
  - now rewrite Hs, Hb, Hc.
Qed.

(** C3.  For every failure mode of the HTTP request (a timeout, a
    transport error, an HTTP error status, a response body that is not
    JSON), [generar_respuesta] does not raise: it returns a response whose
    [choices[0].message.content] is a non-empty string, and on a timeout
    that string is the fixed timeout message. *)
Theorem generar_respuesta_fallo (w : Mundo E) (self : ModeloRemoto)
    (mensajes : list Mensaje) (temperatura top_p : QArith_base.Q) (max_tokens : Z)
    (s' : estado E) (r : resultado_de Respuesta) (e : excepcion) :
  env_post E (direccion_chat self)
    (carga_de self mensajes temperatura top_p max_tokens) (est w) = (s', r) ->
  fallo_http r = Some e ->
  exists texto,
    snd (generar_respuesta self mensajes temperatura top_p max_tokens w)
    = inr (respuesta_sintetica texto)
    /\ contenido (respuesta_sintetica texto) = inr (JStr texto)
    /\ texto <> ""
    /\ (es_Timeout (clase e) = true -> texto = MSG_TIMEOUT).
Proof.
  intros Hp Hf. destruct (solicitar_fallo _ _ _ _ _ _ Hp Hf) as [Hs Hx].
  exists (texto_de_error e). unfold generar_respuesta, try_except.
  rewrite Hs. unfold texto_de_error.
  destruct (es_Timeout (clase e)) eqn:Ht.
  - repeat split; discriminate.
  - rewrite Hx. repeat split; discriminate.
Qed.

(** What [generar_sql] returns is the post-processing [extraer_sql] of the
    text of the model's reply. *)
Lemma generar_sql_contenido (w w' : Mundo E) (esquema pregunta : string)
    (modelo : ModeloRemoto) (respuesta : json) (texto : string) :
  generar_respuesta modelo (mensajes_sql esquema pregunta) (QArith_base.Qmake 1 10)
    (QArith_base.Qmake 9 10) 4096 w = (w', inr respuesta) ->
  contenido respuesta = inr (JStr texto) ->
  generar_sql esquema pregunta modelo w = (w', inr (extraer_sql texto)).
Proof.
  intros Hr Hc. unfold generar_sql, bind, puro, ret. now rewrite Hr, Hc.
Qed.

(** What [generar_respuesta_natural] returns is the Markdown cleanup of the
    text of the model's reply. *)
Lemma generar_respuesta_natural_contenido (w w' : Mundo E) (pregunta : string)
    (resultado : valor) (modelo : ModeloRemoto) (respuesta : json) (texto : string) :
  generar_respuesta modelo (mensajes_respuesta pregunta resultado)
    (QArith_base.Qmake 3 10) (QArith_base.Qmake 9 10) 4096 w = (w', inr respuesta) ->
  contenido respuesta = inr (JStr texto) ->
  generar_respuesta_natural pregunta resultado modelo w
  = (w', inr (limpiar_markdown texto)).
Proof.
  intros Hr Hc. unfold generar_respuesta_natural, bind, puro, ret. now rewrite Hr, Hc.
Qed.

End ClienteChat.

Lemma generar_respuesta_fallo_witness :
  exists texto,
    snd (generar_respuesta modelo_lm [] (QArith_base.Qmake 1 10) (QArith_base.Qmake 9 10)
           4096 (simulado [] [inl (Exc Timeout "Read timed out. (read timeout=120)")]))
    = inr (respuesta_sintetica texto)
    /\ contenido (respuesta_sintetica texto) = inr (JStr texto)
    /\ texto <> ""
    /\ (es_Timeout Timeout = true -> texto = MSG_TIMEOUT).
Proof.
  refine (@generar_respuesta_fallo Sim.entorno
            (simulado [] [inl (Exc Timeout "Read timed out. (read timeout=120)")])
            modelo_lm [] (QArith_base.Qmake 1 10) (QArith_base.Qmake 9 10) 4096
            (est (simulado [] []))
            (inl (Exc Timeout "Read timed out. (read timeout=120)"))
            (Exc Timeout "Read timed out. (read timeout=120)") _ _);
    reflexivity.
Defined.

Example generar_respuesta_cuerpo_no_json :
  snd (generar_respuesta modelo_lm [] (QArith_base.Qmake 1 10) (QArith_base.Qmake 9 10)
         4096
         (simulado [] [inr {| status_code := 200; reason := "OK";
                              url := "http://192.168.1.60:1234/v1/chat/completions";
                              cuerpo := inl (Exc JSONDecodeError
                                               "Expecting value: line 1 column 1 (char 0)") |}]))
  = inr (respuesta_sintetica
           (MSG_ERROR_MODELO ++ "Expecting value: line 1 column 1 (char 0)")).
Proof. reflexivity. Qed.

Example generar_respuesta_http_500 :
  snd (generar_respuesta modelo_lm [] (QArith_base.Qmake 1 10) (QArith_base.Qmake 9 10)
         4096
         (simulado [] [inr {| status_code := 500; reason := "Internal Server Error";
                              url := "http://192.168.1.60:1234/v1/chat/completions";
                              cuerpo := inr JNull |}]))
  = inr (respuesta_sintetica
           (MSG_ERROR_MODELO ++ "500 Server Error: Internal Server Error for url: "
              ++ "http://192.168.1.60:1234/v1/chat/completions")).
Proof. reflexivity. Qed.

(** ** The schema describer *)

Section Esquema.

Context {E : Entorno}.

(** The text accumulated so far only ever grows at its end. *)
Lemma describir_columnas_acumula (columnas : list valor) (descripcion : string) :
  describir_columnas columnas descripcion
  = ligar (describir_columnas columnas "") (fun cuerpo => inr (descripcion ++ cuerpo)).
Proof.
  revert descripcion. induction columnas as [|fila resto IH]; intros descripcion.
  - simpl. now rewrite append_nil_r.
  - cbn [describir_columnas].
    destruct (desempaquetar 2 fila) as [e|par]; [reflexivity|]. cbn [ligar].
    destruct par as [|columna [|tipo_dato [|]]]; try reflexivity.
    rewrite (IH (descripcion ++ _)), (IH ("" ++ _)).
    destruct (describir_columnas resto "") as [e|cuerpo]; [reflexivity|].
    cbn [ligar]. now rewrite !append_assoc.
Qed.

Lemma describir_tablas_acumula (tablas : list valor) (descripcion : string)
    (w : Mundo E) :
  describir_tablas tablas descripcion w
  = match describir_tablas tablas "" w with
    | (w', inl e) => (w', inl e)
    | (w', inr cuerpo) => (w', inr (descripcion ++ cuerpo))
    end.
Proof.
  revert descripcion w. induction tablas as [|fila resto IH]; intros descripcion w.
  - simpl. unfold ret. now rewrite append_nil_r.
  - cbn [describir_tablas]. unfold bind, puro.
    destruct (desempaquetar 1 fila) as [e|uno]; [reflexivity|].
    destruct uno as [|tabla [|]]; try reflexivity.
    unfold cursor_execute, cursor_fetchall, llamar.
    destruct (env_execute E CONSULTA_COLUMNAS [tabla] (est w)) as [s1 [e|[]]];
      [reflexivity|].
    cbn [est anotar].
    destruct (env_fetchall E s1) as [s2 [e|r]]; [reflexivity|].
    destruct (filas_de r) as [e|columnas]; [reflexivity|].
    rewrite (describir_columnas_acumula columnas (descripcion ++ _)).
    rewrite (describir_columnas_acumula columnas ("" ++ _)).
    destruct (describir_columnas columnas "") as [e|cols]; [reflexivity|].
    cbn [ligar].
    rewrite (IH (((descripcion ++ _) ++ _) ++ _)), (IH ((("" ++ _) ++ _) ++ _)).
    match goal with |- context [describir_tablas resto "" ?w0] =>
      destruct (describir_tablas resto "" w0) as [w' [e|cuerpo]] end;
      [reflexivity|].
    now rewrite !append_assoc.
Qed.

(** C9.  For every environment and world, and every two database names,
    the two runs of [obtener_descripcion_esquema] make the same calls and
    leave the same world, and either raise the same exception or return
    the header of their own name followed by one common body: the tables
    and columns listed do not depend on the name. *)
Theorem obtener_descripcion_esquema_nombre (w : Mundo E) (d1 d2 : string) :
  exists w',
    (exists e,
        obtener_descripcion_esquema d1 w = (w', inl e)
        /\ obtener_descripcion_esquema d2 w = (w', inl e))
    \/ (exists cuerpo,
        obtener_descripcion_esquema d1 w = (w', inr (encabezado d1 ++ cuerpo))
        /\ obtener_descripcion_esquema d2 w = (w', inr (encabezado d2 ++ cuerpo))).
Proof.
  unfold obtener_descripcion_esquema, bind, conexion_cursor, cursor_execute,
    cursor_fetchall, llamar, puro.
  destruct (env_cursor E (est w)) as [s1 [e|[]]]; [eauto|].
  cbn [est anotar].
  destruct (env_execute E CONSULTA_TABLAS [] s1) as [s2 [e|[]]]; [eauto|].
  cbn [est anotar].
  destruct (env_fetchall E s2) as [s3 [e|r]]; [eauto|].
  destruct (filas_de r) as [e|tablas]; [eauto|].
  rewrite (describir_tablas_acumula tablas ("Esquema de " ++ d1 ++ _)).
  rewrite (describir_tablas_acumula tablas ("Esquema de " ++ d2 ++ _)).
  match goal with |- context [describir_tablas tablas "" ?w0] =>
    destruct (describir_tablas tablas "" w0) as [w' [e|cuerpo]] end.
  - exists w'. left. now exists e.
  - exists w'. right. now exists cuerpo.
Qed.

End Esquema.

Section EsquemaSimulado.

Lemma concat_vacio_cons (x : string) (xs : list string) :
  String.concat "" (x :: xs) = x ++ String.concat "" xs.
Proof. destruct xs; simpl; [now rewrite append_nil_r | reflexivity]. Qed.

Lemma describir_columnas_catalogo (cols : list (string * string)) (descripcion : string) :
  describir_columnas (map Sim.fila_columna cols) descripcion
  = inr (descripcion ++ String.concat "" (map (fun c => linea (vineta c)) cols)).
Proof.
  revert descripcion. induction cols as [|[nombre tipo] cols IH]; intros descripcion.
  - simpl. now rewrite append_nil_r.
  - cbn [map]. rewrite concat_vacio_cons. cbn [describir_columnas].
    change (desempaquetar 2 (Sim.fila_columna (nombre, tipo)))
      with (@inr excepcion _ [VStr nombre; VStr tipo]).
    cbn [ligar]. rewrite IH. unfold linea, vineta. cbn [fst snd PyRepr.str].
    now rewrite !append_assoc.
Qed.

Lemma execute_columnas (t : string) (s : Sim.t) :
  Sim.execute CONSULTA_COLUMNAS [VStr t] s
  = (Sim.con_pendiente (Some (map Sim.fila_columna (Sim.columnas_de t (Sim.catalogo s)))) s,
     inr tt).
Proof. reflexivity. Qed.

Lemma execute_tablas (s : Sim.t) :
  Sim.execute CONSULTA_TABLAS [] s
  = (Sim.con_pendiente (Some (map Sim.fila_tabla (Sim.catalogo s))) s, inr tt).
Proof. reflexivity. Qed.

Lemma describir_tablas_catalogo (tablas : list (string * list (string * string)))
    (descripcion : string) (w : Mundo Sim.entorno) :
  snd (describir_tablas (map Sim.fila_tabla tablas) descripcion w)
  = inr (descripcion
         ++ String.concat ""
              (map (fun t => bloque_tabla (Sim.catalogo (est w)) (fst t)) tablas)).
Proof.
  revert descripcion w.
  induction tablas as [|[t cols] tablas IH]; intros descripcion w.
  - simpl. now rewrite append_nil_r.
  - cbn [map]. rewrite concat_vacio_cons. cbn [describir_tablas].
    unfold bind, puro.
    change (desempaquetar 1 (Sim.fila_tabla (t, cols)))
      with (@inr excepcion _ [VStr t]).
    unfold cursor_execute, cursor_fetchall, llamar.
    cbn [env_execute env_fetchall Sim.entorno].
    rewrite execute_columnas. cbn [est anotar].
    unfold Sim.fetchall. cbn [Sim.pendiente Sim.con_pendiente filas_de].
    rewrite describir_columnas_catalogo.
    rewrite IH. cbn [est anotar Sim.catalogo Sim.con_pendiente fst].
    unfold bloque_tabla at 2. unfold linea. cbn [PyRepr.str].
    f_equal. now rewrite !append_assoc.
Qed.

(** C8.  Against a database that answers the two catalogue queries from a
    catalogue [cat], the schema description is a header line with the
    database name, then for each table of [cat], in order, the sub-header
    (the line [Tabla: t], then the line [Columnas:]), one line
    [  - name (type)] per column, and a blank line. *)
Theorem obtener_descripcion_esquema_formato (s : Sim.t) (base_datos : string) :
  snd (obtener_descripcion_esquema base_datos (Sim.mundo s))
  = inr (descripcion_esperada base_datos (Sim.catalogo s)).
Proof.
  unfold obtener_descripcion_esquema, bind, conexion_cursor, cursor_execute,
    cursor_fetchall, llamar, puro.
  cbn [env_cursor env_execute env_fetchall Sim.entorno est anotar Sim.mundo Sim.cursor].
  rewrite execute_tablas. cbn [est anotar].
  unfold Sim.fetchall. cbn [Sim.pendiente Sim.con_pendiente filas_de].
  rewrite describir_tablas_catalogo. cbn [est anotar Sim.catalogo Sim.con_pendiente].
  unfold descripcion_esperada, linea. now rewrite !append_assoc.
Qed.

Example descripcion_de_inicial :
  snd (obtener_descripcion_esquema "tienda" (Sim.mundo Sim.inicial))
  = inr ("Esquema de tienda:" ++ NL
         ++ "Tabla: users" ++ NL
         ++ "Columnas:" ++ NL
         ++ "  - id (int)" ++ NL
         ++ "  - name (varchar)" ++ NL
         ++ NL).
Proof. reflexivity. Qed.

Example descripcion_sin_tablas :
  snd (obtener_descripcion_esquema "tienda"
         (Sim.mundo {| Sim.entrada := []; Sim.red := []; Sim.catalogo := [];
                       Sim.users := []; Sim.pendiente := None |}))
  = inr ("Esquema de tienda:" ++ NL).
Proof. reflexivity. Qed.

End EsquemaSimulado.

(** ** The orchestration loop *)

Section Bucle.

Context {E : Entorno}.

Lemma sin_prints_app (t u : list evento) :
  sin_prints (t ++ u) = (sin_prints t ++ sin_prints u)%list.
Proof.
  induction t as [|ev t IH]; [reflexivity|].
  destruct ev; simpl; now rewrite IH.
Qed.

Lemma bucle_paso (n : nat) (esquema : string) (modelo : ModeloRemoto) (w : Mundo E) :
  bucle (S n) esquema modelo w
  = match ciclo esquema modelo w with
    | (w', inl e) => (w', inl e)
    | (w', inr Break) => (w', inr true)
    | (w', inr Continue) => bucle n esquema modelo w'
    end.
Proof.
  cbn [bucle]. unfold bind.
  destruct (ciclo esquema modelo w) as [w' [e|[|]]]; reflexivity.
Qed.

Lemma prolonga_refl (t : list evento) : prolonga t t.
Proof. exists []. now rewrite app_nil_r. Qed.

Lemma prolonga_trans (t u v : list evento) :
  prolonga t u -> prolonga u v -> prolonga t v.
Proof. intros [x ->] [y ->]. exists (x ++ y)%list. now rewrite app_assoc. Qed.

Lemma prolonga_anotar (ev : evento) (s : estado E) (w : Mundo E) :
  prolonga (traza w) (traza (anotar ev s w)).
Proof. now exists [ev]. Qed.

(** Whatever happens to the request, [generar_respuesta] leaves the trace
    it found in place. *)
Lemma generar_respuesta_prolonga (w : Mundo E) (self : ModeloRemoto)
    (mensajes : list Mensaje) (temperatura top_p : QArith_base.Q) (max_tokens : Z) :
  prolonga (traza w)
    (traza (fst (generar_respuesta self mensajes temperatura top_p max_tokens w))).
Proof.
  unfold generar_respuesta, try_except, solicitar, bind, requests_post, llamar,
    puro, ret.
  destruct (env_post E _ _ (est w)) as [s' [e|resp]].
  - destruct (es_Timeout (clase e)); [|destruct (es_RequestException (clase e))];
      cbn [fst]; apply prolonga_anotar.
  - destruct (raise_for_status resp) as [e|[]].
    + destruct (es_Timeout (clase e)); [|destruct (es_RequestException (clase e))];
        cbn [fst]; apply prolonga_anotar.
    + destruct (cuerpo resp) as [e|j]; [|cbn [fst]; apply prolonga_anotar].
      destruct (es_Timeout (clase e)); [|destruct (es_RequestException (clase e))];
        cbn [fst]; apply prolonga_anotar.
Qed.

Lemma generar_sql_prolonga (w : Mundo E) (esquema pregunta : string)
    (modelo : ModeloRemoto) :
  prolonga (traza w) (traza (fst (generar_sql esquema pregunta modelo w))).
Proof.
  pose proof (generar_respuesta_prolonga w modelo (mensajes_sql esquema pregunta)
                (QArith_base.Qmake 1 10) (QArith_base.Qmake 9 10) 4096) as H.
  unfold generar_sql, bind, puro, ret.
  destruct (generar_respuesta _ _ _ _ _ w) as [w' [e|resp]]; [exact H|].
  destruct (contenido resp) as [e|texto]; [exact H|].
  destruct (receptor_strip texto); exact H.
Qed.

Lemma generar_respuesta_natural_prolonga (w : Mundo E) (pregunta : string)
    (resultado : valor) (modelo : ModeloRemoto) :
  prolonga (traza w)
    (traza (fst (generar_respuesta_natural pregunta resultado modelo w))).
Proof.
  pose proof (generar_respuesta_prolonga w modelo (mensajes_respuesta pregunta resultado)
                (QArith_base.Qmake 3 10) (QArith_base.Qmake 9 10) 4096) as H.
  unfold generar_respuesta_natural, bind, puro, ret.
  destruct (generar_respuesta _ _ _ _ _ w) as [w' [e|resp]]; [exact H|].
  destruct (contenido resp) as [e|texto]; [exact H|].
  destruct (como_str texto); exact H.
Qed.

Lemma ejecutar_sql_prolonga (w : Mundo E) (consulta : string) :
  prolonga (traza w) (traza (fst (ejecutar_sql consulta w))).
Proof.
  unfold ejecutar_sql, bind, try_except, conexion_cursor, cursor_execute,
    cursor_fetchall, llamar, ret, puro.
  destruct (env_cursor E (est w)) as [s1 [e1|[]]].
  { cbn [fst]. apply prolonga_anotar. }
  cbn [est anotar].
  assert (H1 : forall s2, prolonga (traza w)
                 (traza (anotar (EvExecute consulta []) s2 (anotar EvCursor s1 w)))).
  { intros s2. eapply prolonga_trans; apply prolonga_anotar. }
  assert (H2 : forall s2 s3, prolonga (traza w)
                 (traza (anotar EvFetchall s3
                    (anotar (EvExecute consulta []) s2 (anotar EvCursor s1 w))))).
  { intros s2 s3. eapply prolonga_trans; [apply (H1 s2)|apply prolonga_anotar]. }
  destruct (env_execute E consulta [] s1) as [s2 [e2|[]]].
  { destruct (es_Exception (clase e2)); cbn [fst]; apply (H1 s2). }
  destruct (es_select consulta).
  - cbn [est anotar].
    destruct (env_fetchall E s2) as [s3 [e3|[[|fila filas]|]]];
      try destruct (es_Exception (clase e3)); cbn [fst]; apply (H2 s2 s3).
  - cbn [fst]. apply (H1 s2).
Qed.

(** C7, amended.  In a cycle the loop reads one line and strips it.  If
    its case-folded form is [exit], the loop stops.  If it is empty, the
    loop prints the blank-question notice and goes round again, having
    called neither the model nor the database.  Otherwise SQL synthesis
    runs; when it returns the empty statement the cycle ends there and the
    loop goes round again, without execution or answer synthesis; when it
    returns a statement, the loop prints it, executes it, formats the
    rows, prints the formatted result, synthesizes the answer from the
    question and that result, prints the answer, and goes round again.
    Each step takes place once the steps before it have returned: when a
    step raises (reading the line, SQL synthesis, execution, formatting,
    answer synthesis), the cycle ends there with that exception, in the
    world that step left, and what was printed before it stays printed. *)
Theorem ciclo_casos (w : Mundo E) (esquema : string) (modelo : ModeloRemoto)
    (s1 : estado E) (r1 : resultado_de string) :
  env_input E PROMPT (est w) = (s1, r1) ->
  let w1 := anotar (EvInput PROMPT) s1 w in
  (forall e, r1 = inl e -> ciclo esquema modelo w = (w1, inl e))
  /\ (forall linea, r1 = inr linea ->
      let pregunta := PyStr.strip linea in
      (PyStr.lower pregunta = "exit" ->
         ciclo esquema modelo w = (w1, inr Break)
         /\ forall n, bucle (S n) esquema modelo w = (w1, inr true))
      /\ (pregunta = "" ->
         ciclo esquema modelo w = (tras_print MSG_VACIA w1, inr Continue)
         /\ sin_prints (traza (tras_print MSG_VACIA w1))
            = (sin_prints (traza w) ++ [EvInput PROMPT])%list
         /\ forall n, bucle (S n) esquema modelo w
                      = bucle n esquema modelo (tras_print MSG_VACIA w1))
      /\ (PyStr.lower pregunta <> "exit" -> pregunta <> "" ->
         forall w2 r2,
           generar_sql esquema pregunta modelo w1 = (w2, r2) ->
           prolonga (traza w1) (traza w2)
           /\ (forall e, r2 = inl e -> ciclo esquema modelo w = (w2, inl e))
           /\ (r2 = inr "" ->
               ciclo esquema modelo w = (w2, inr Continue)
               /\ sin_prints (traza (fst (ciclo esquema modelo w)))
                  = sin_prints (traza w2))
           /\ (forall sql, r2 = inr sql -> sql <> "" ->
               forall w3 r3,
                 ejecutar_sql sql (tras_print (texto_sql sql) w2) = (w3, r3) ->
                 prolonga (traza w2 ++ [EvPrint (texto_sql sql)]) (traza w3)
                 /\ (forall e, r3 = inl e -> ciclo esquema modelo w = (w3, inl e))
                 /\ (forall filas, r3 = inr filas ->
                     (forall e, formatear_resultado filas = inl e ->
                        ciclo esquema modelo w = (w3, inl e))
                     /\ (forall resultado, formatear_resultado filas = inr resultado ->
                         forall w4 r4,
                           generar_respuesta_natural pregunta resultado modelo
                             (tras_print (texto_resultado resultado) w3) = (w4, r4) ->
                           prolonga (traza w3 ++ [EvPrint (texto_resultado resultado)])
                             (traza w4)
                           /\ (forall e, r4 = inl e ->
                                 ciclo esquema modelo w = (w4, inl e))
                           /\ (forall respuesta, r4 = inr respuesta ->
                                 ciclo esquema modelo w
                                 = (tras_print (texto_respuesta respuesta) w4,
                                    inr Continue))))))).
Proof.
  intros Hin w1. split.
  { intros e ->. unfold ciclo. unfold bind at 1. unfold input, llamar.
    now rewrite Hin. }
  intros linea -> pregunta.
  assert (Hc : ciclo esquema modelo w
               = (if String.eqb (PyStr.lower pregunta) "exit" then ret Break
                  else if String.eqb pregunta "" then
                    bind (print MSG_VACIA) (fun _ => ret Continue)
                  else
                    bind (generar_sql esquema pregunta modelo) (fun sql =>
                    if String.eqb sql "" then ret Continue
                    else
                      bind (print (texto_sql sql)) (fun _ =>
                      bind (ejecutar_sql sql) (fun filas =>
                      bind (puro (formatear_resultado filas)) (fun resultado =>
                      bind (print (texto_resultado resultado)) (fun _ =>
                      bind (generar_respuesta_natural pregunta resultado modelo)
                        (fun respuesta =>
                      bind (print (texto_respuesta respuesta)) (fun _ =>
                      ret Continue)))))))) w1).
  { unfold ciclo at 1. unfold bind at 1. unfold input, llamar. now rewrite Hin. }
  split; [|split].
  - intros Hexit.
    assert (H : ciclo esquema modelo w = (w1, inr Break)).
    { rewrite Hc, Hexit. reflexivity. }
    split; [exact H|]. intros n. now rewrite bucle_paso, H.
  - intros Hblank.
    assert (H : ciclo esquema modelo w = (tras_print MSG_VACIA w1, inr Continue)).
    { rewrite Hc, Hblank. reflexivity. }
    split; [exact H|]. split.
    + unfold tras_print, w1, anotar. cbn [traza est].
      rewrite !sin_prints_app. simpl. now rewrite app_nil_r.
    + intros n. now rewrite bucle_paso, H.
  - intros Hne Hnb w2 r2 Hsql.
    apply String.eqb_neq in Hne, Hnb.
    rewrite Hne, Hnb in Hc. unfold bind at 1 in Hc. rewrite Hsql in Hc.
    split.
    { pose proof (generar_sql_prolonga w1 esquema pregunta modelo) as Hp.
      now rewrite Hsql in Hp. }
    split; [intros e ->; exact Hc|].
    split.
    { intros ->. rewrite Hc. repeat split. }
    intros sql -> Hs w3 r3 Hej.
    apply String.eqb_neq in Hs. rewrite Hs in Hc.
    unfold bind at 1 in Hc. unfold print at 1 in Hc. unfold llamar at 1 in Hc.
    fold (tras_print (texto_sql sql) w2) in Hc.
    unfold bind at 1 in Hc. rewrite Hej in Hc.
    split.
    { pose proof (ejecutar_sql_prolonga (tras_print (texto_sql sql) w2) sql) as Hp.
      now rewrite Hej in Hp. }
    split; [intros e ->; exact Hc|].
    intros filas ->.
    unfold bind at 1 in Hc. unfold puro at 1 in Hc.
    split.
    { intros e He. now rewrite He in Hc. }
    intros resultado Hfmt w4 r4 Hresp. rewrite Hfmt in Hc.
    unfold bind at 1 in Hc. unfold print at 1 in Hc. unfold llamar at 1 in Hc.
    fold (tras_print (texto_resultado resultado) w3) in Hc.
    unfold bind at 1 in Hc. rewrite Hresp in Hc.
    split.
    { pose proof (generar_respuesta_natural_prolonga
                    (tras_print (texto_resultado resultado) w3) pregunta resultado
                    modelo) as Hp.
      now rewrite Hresp in Hp. }
    split; [intros e ->; exact Hc|].
    intros respuesta ->. exact Hc.
Qed.

End Bucle.

Lemma ciclo_casos_witness :
  (snd (ciclo "" modelo_lm mundo_pregunta) = inr Continue
   /\ Sim.impreso (traza (fst (ciclo "" modelo_lm mundo_pregunta)))
      = [texto_sql "SELECT COUNT(*) FROM users;";
         texto_resultado (VTuple [VInt 2]);
         texto_respuesta "Hay 2 usuarios."])
  /\ (snd (ciclo "" modelo_lm mundo_segunda_mal_formada) = inl (Exc KeyError "'choices'")
      /\ Sim.impreso (traza (fst (ciclo "" modelo_lm mundo_segunda_mal_formada)))
         = [texto_sql "SELECT COUNT(*) FROM users;";
            texto_resultado (VTuple [VInt 2])]).
Proof.
  assert (Hne : PyStr.lower (PyStr.strip "How many users are there?") <> "exit")
    by (vm_compute; discriminate).
  assert (Hnb : PyStr.strip "How many users are there?" <> "")
    by (vm_compute; discriminate).
  split.
  - pose proof (@ciclo_casos Sim.entorno mundo_pregunta "" modelo_lm
                  (est (simulado [] [respuesta_con_fence; Sim.ok200 "Hay **2** usuarios."]))
                  (inr "How many users are there?") eq_refl) as H.
    cbv zeta in H. destruct H as (_ & H).
    destruct (H _ eq_refl) as (_ & _ & H1). clear H.
    specialize (H1 Hne Hnb).
    match type of H1 with
    | forall w2 r2, ?g = _ -> _ =>
        destruct g as [w2 r2] eqn:Hsql; vm_compute in Hsql;
        injection Hsql as <- <-
    end.
    destruct (H1 _ _ eq_refl) as (_ & _ & _ & H2). clear H1.
    specialize (H2 _ eq_refl ltac:(discriminate)).
    match type of H2 with
    | forall w3 r3, ?g = _ -> _ =>
        destruct g as [w3 r3] eqn:Hej; vm_compute in Hej;
        injection Hej as <- <-
    end.
    destruct (H2 _ _ eq_refl) as (_ & _ & H3). clear H2.
    destruct (H3 _ eq_refl) as (_ & H4). clear H3.
    specialize (H4 (VTuple [VInt 2]) eq_refl).
    match type of H4 with
    | forall w4 r4, ?g = _ -> _ =>
        destruct g as [w4 r4] eqn:Hresp; vm_compute in Hresp;
        injection Hresp as <- <-
    end.
    destruct (H4 _ _ eq_refl) as (_ & _ & H5). clear H4.
    rewrite (H5 _ eq_refl). split; reflexivity.
  - pose proof (@ciclo_casos Sim.entorno mundo_segunda_mal_formada "" modelo_lm
                  (est (simulado [] [respuesta_con_fence; ok200_json (JObj [])]))
                  (inr "How many users are there?") eq_refl) as H.
    cbv zeta in H. destruct H as (_ & H).
    destruct (H _ eq_refl) as (_ & _ & H1). clear H.
    specialize (H1 Hne Hnb).
    match type of H1 with
    | forall w2 r2, ?g = _ -> _ =>
        destruct g as [w2 r2] eqn:Hsql; vm_compute in Hsql;
        injection Hsql as <- <-
    end.
    destruct (H1 _ _ eq_refl) as (_ & _ & _ & H2). clear H1.
    specialize (H2 _ eq_refl ltac:(discriminate)).
    match type of H2 with
    | forall w3 r3, ?g = _ -> _ =>
        destruct g as [w3 r3] eqn:Hej; vm_compute in Hej;
        injection Hej as <- <-
    end.
    destruct (H2 _ _ eq_refl) as (_ & _ & H3). clear H2.
    destruct (H3 _ eq_refl) as (_ & H4). clear H3.
    specialize (H4 (VTuple [VInt 2]) eq_refl).
    match type of H4 with
    | forall w4 r4, ?g = _ -> _ =>
        destruct g as [w4 r4] eqn:Hresp; vm_compute in Hresp;
        injection Hresp as <- <-
    end.
    destruct (H4 _ _ eq_refl) as (_ & H5 & _). clear H4.
    rewrite (H5 _ eq_refl). split; reflexivity.
Defined.

(** C7, as stated, fails for a question that is neither blank nor [exit]
    when SQL synthesis returns the empty statement: the cycle ends without
    reporting the SQL, a result and an answer. *)
Lemma ciclo_sql_vacio_sin_informe :
  PyStr.lower (PyStr.strip "How many users are there?") <> "exit"
  /\ PyStr.strip "How many users are there?" <> ""
  /\ snd (ciclo "" modelo_lm mundo_sql_vacio) = inr Continue
  /\ ~ (exists sql resultado respuesta,
          Sim.impreso (traza (fst (ciclo "" modelo_lm mundo_sql_vacio)))
          = [texto_sql sql; texto_resultado resultado; texto_respuesta respuesta])
  /\ filter es_bd (traza (fst (ciclo "" modelo_lm mundo_sql_vacio))) = []
  /\ List.length (filter es_post (traza (fst (ciclo "" modelo_lm mundo_sql_vacio)))) = 1%nat.
Proof.
  assert (Ht : traza (fst (ciclo "" modelo_lm mundo_sql_vacio))
               = [EvInput PROMPT;
                  EvPost (direccion_chat modelo_lm)
                    (carga_de modelo_lm (mensajes_sql "" "How many users are there?")
                       (QArith_base.Qmake 1 10) (QArith_base.Qmake 9 10) 4096)])
    by (vm_compute; reflexivity).
  rewrite Ht. cbn [Sim.impreso filter es_bd es_post List.length].
  repeat split; try (vm_compute; discriminate).
  intros (sql & resultado & respuesta & H). discriminate H.
Qed.

Example sesion_completa :
  snd (main "tienda" 10 (Sim.mundo escenario)) = inr true
  /\ Sim.users (est (fst (main "tienda" 10 (Sim.mundo escenario)))) = [].
Proof. vm_compute. split; reflexivity. Qed.

(* ===================================================================== *)
(** * Further properties of the code *)
(* ===================================================================== *)

(** ** The chat client, beyond its failure modes *)

Section ClienteChatExtra.

Context {E : Entorno}.

(** X1.  Whatever the outcome, [generar_respuesta] makes exactly one call
    to the outside world: one POST to the chat endpoint of the model with
    the request body built from its arguments.  There is no retry and no
    other call. *)
Theorem generar_respuesta_un_post (w : Mundo E) (self : ModeloRemoto)
    (mensajes : list Mensaje) (temperatura top_p : QArith_base.Q) (max_tokens : Z) :
  traza (fst (generar_respuesta self mensajes temperatura top_p max_tokens w))
  = (traza w
     ++ [EvPost (direccion_chat self)
           (carga_de self mensajes temperatura top_p max_tokens)])%list.
Proof.
  unfold generar_respuesta, try_except, solicitar, bind, requests_post, llamar,
    puro, ret.
  destruct (env_post E _ _ (est w)) as [s' [e|resp]].
  - destruct (es_Timeout (clase e)); [reflexivity|].
    destruct (es_RequestException (clase e)); reflexivity.
  - destruct (raise_for_status resp) as [e|[]].
    + destruct (es_Timeout (clase e)); [reflexivity|].
      destruct (es_RequestException (clase e)); reflexivity.
    + destruct (cuerpo resp) as [e|j]; [|reflexivity].
      destruct (es_Timeout (clase e)); [reflexivity|].
      destruct (es_RequestException (clase e)); reflexivity.
Qed.

Lemma raise_for_status_ok (resp : Respuesta) :
  (status_code resp < 400 \/ 600 <= status_code resp)%Z ->
  raise_for_status resp = inr tt.
Proof.
  intros H. unfold raise_for_status.
  destruct (Z.leb_spec 400 (status_code resp)); destruct (Z.ltb_spec (status_code resp) 500);
    destruct (Z.leb_spec 500 (status_code resp)); destruct (Z.ltb_spec (status_code resp) 600);
    simpl; try reflexivity; lia.
Qed.

(** X2.  When the response has a status outside 400..599 and its body
    decodes, [generar_respuesta] returns the decoded body as it is,
    whatever its shape. *)
Theorem generar_respuesta_exito (w : Mundo E) (self : ModeloRemoto)
    (mensajes : list Mensaje) (temperatura top_p : QArith_base.Q) (max_tokens : Z)
    (s' : estado E) (resp : Respuesta) (j : json) :
  env_post E (direccion_chat self)
    (carga_de self mensajes temperatura top_p max_tokens) (est w) = (s', inr resp) ->
  (status_code resp < 400 \/ 600 <= status_code resp)%Z ->
  cuerpo resp = inr j ->
  snd (generar_respuesta self mensajes temperatura top_p max_tokens w) = inr j.
Proof.
  intros Hp Hs Hc.
  unfold generar_respuesta, try_except, solicitar, bind, requests_post, llamar, puro.
  now rewrite Hp, (raise_for_status_ok _ Hs), Hc.
Qed.

(** X3.  An exception that is not a [RequestException] is not caught by
    [generar_respuesta]: raised by the post itself (an interrupt), or by
    the decoding of the body (a plain [ValueError]), it reaches the
    caller. *)
Theorem generar_respuesta_propaga (w : Mundo E) (self : ModeloRemoto)
    (mensajes : list Mensaje) (temperatura top_p : QArith_base.Q) (max_tokens : Z)
    (s' : estado E) (r : resultado_de Respuesta) (e : excepcion) :
  env_post E (direccion_chat self)
    (carga_de self mensajes temperatura top_p max_tokens) (est w) = (s', r) ->
  r = inl e
  \/ (exists resp, r = inr resp /\ raise_for_status resp = inr tt /\ cuerpo resp = inl e) ->
  es_RequestException (clase e) = false ->
  snd (generar_respuesta self mensajes temperatura top_p max_tokens w) = inl e.
Proof.
  intros Hp Hr Hx.
  assert (Ht : es_Timeout (clase e) = false) by (destruct (clase e); easy).
  unfold generar_respuesta, try_except, solicitar, bind, requests_post, llamar, puro.
  rewrite Hp. destruct Hr as [-> | (resp & -> & Hs & Hc)].
  - now rewrite Ht, Hx.
  - now rewrite Hs, Hc, Ht, Hx.
Qed.

End ClienteChatExtra.

Lemma generar_respuesta_exito_witness :
  snd (generar_respuesta modelo_lm [] (QArith_base.Qmake 1 10) (QArith_base.Qmake 9 10)
         4096 (simulado [] [ok200_json (JObj [("error", JStr "model not loaded")])]))
  = inr (JObj [("error", JStr "model not loaded")]).
Proof.
  refine (@generar_respuesta_exito Sim.entorno
            (simulado [] [ok200_json (JObj [("error", JStr "model not loaded")])])
            modelo_lm [] (QArith_base.Qmake 1 10) (QArith_base.Qmake 9 10) 4096
            (est (simulado [] []))
            {| status_code := 200; reason := "OK";
               url := "http://192.168.1.60:1234/v1/chat/completions";
               cuerpo := inr (JObj [("error", JStr "model not loaded")]) |}
            _ _ _ _); [reflexivity | left; reflexivity | reflexivity].
Defined.

Lemma generar_respuesta_propaga_witness :
  snd (generar_respuesta modelo_lm [] (QArith_base.Qmake 1 10) (QArith_base.Qmake 9 10)
         4096 (simulado [] [inl (Exc KeyboardInterrupt "")]))
  = inl (Exc KeyboardInterrupt "").
Proof.
  refine (@generar_respuesta_propaga Sim.entorno
            (simulado [] [inl (Exc KeyboardInterrupt "")])
            modelo_lm [] (QArith_base.Qmake 1 10) (QArith_base.Qmake 9 10) 4096
            (est (simulado [] [])) _ (Exc KeyboardInterrupt "") _ _ _);
    [reflexivity | left; reflexivity | reflexivity].
Defined.

(** ** The constructor of the model wrapper *)

Section Constructor.

Lemma rstrip_barra_no_termina (u t : string) : rstrip_barra u <> t ++ "/".
Proof.
  revert t. induction u as [|c u IH]; intros t; simpl.
  - destruct t; discriminate.
  - destruct (rstrip_barra u) as [|a r] eqn:Hr.
    + destruct (Ascii.eqb_spec c "/"%char) as [->|Hc].
      * destruct t; discriminate.
      * destruct t as [|b [|b' t]]; simpl; try discriminate.
        intros [= ->]. now apply Hc.
    + destruct t as [|b t]; simpl; [discriminate|].
      intros [= _ H]. now apply (IH t).
Qed.

Lemma rstrip_barra_descompone (u : string) :
  exists barras,
    PyStr.all (fun c => Ascii.eqb c "/"%char) barras = true
    /\ u = rstrip_barra u ++ barras.
Proof.
  induction u as [|c u (b & Hb & Hu)]; [now exists ""|].
  simpl. destruct (rstrip_barra u) as [|a r] eqn:Hr.
  - destruct (Ascii.eqb c "/"%char) eqn:Hc.
    + exists (String c b). simpl. rewrite Hc, Hb. simpl in Hu. now subst.
    + exists b. simpl in *. now subst.
  - exists b. split; [assumption|]. simpl in Hu |- *. now rewrite <- Hu.
Qed.

Lemma rstrip_barra_barra (u : string) : rstrip_barra (u ++ "/") = rstrip_barra u.
Proof.
  induction u as [|c u IH]; [reflexivity|].
  simpl. now rewrite IH.
Qed.

(** X4.  [ModeloRemoto.__init__] removes the trailing slashes of the base
    URL and nothing else: the stored URL does not end with a slash, the
    argument is the stored URL followed by slashes only, and one more
    trailing slash in the argument changes nothing, so the endpoint is
    the same. *)
Theorem ModeloRemoto_init_sin_barra_final (u nombre : string) :
  (forall t, url_base (ModeloRemoto_init u nombre) <> t ++ "/")
  /\ (exists barras,
         PyStr.all (fun c => Ascii.eqb c "/"%char) barras = true
         /\ u = url_base (ModeloRemoto_init u nombre) ++ barras)
  /\ direccion_chat (ModeloRemoto_init (u ++ "/") nombre)
     = direccion_chat (ModeloRemoto_init u nombre).
Proof.
  unfold direccion_chat, ModeloRemoto_init. cbn [url_base]. split; [|split].
  - intros t. apply rstrip_barra_no_termina.
  - apply rstrip_barra_descompone.
  - now rewrite rstrip_barra_barra.
Qed.

End Constructor.

(** ** The query executor, beyond the gate *)

Section EjecutorExtra.

Context {E : Entorno}.

(** X5.  The only exceptions that leave [ejecutar_sql] are the one raised
    by [conexion.cursor()], which is called before the [try], and those
    that are not an [Exception] (an interrupt): once the cursor is there,
    no [Exception] reaches the caller. *)
Theorem ejecutar_sql_lo_que_escapa (w : Mundo E) (consulta : string) (e : excepcion) :
  snd (ejecutar_sql consulta w) = inl e ->
  snd (env_cursor E (est w)) = inl e \/ es_Exception (clase e) = false.
Proof.
  unfold ejecutar_sql, bind, try_except, conexion_cursor, cursor_execute,
    cursor_fetchall, llamar, ret, puro.
  destruct (env_cursor E (est w)) as [s1 [e1|[]]];
    [intros H; left; simpl in H; injection H as <-; reflexivity|].
  cbn [est anotar]. intros H. right.
  destruct (env_execute E consulta [] s1) as [s2 [e2|[]]].
  - destruct (es_Exception (clase e2)) eqn:Hx; [discriminate|].
    simpl in H. now injection H as <-.
  - destruct (es_select consulta); [|discriminate].
    cbn [est anotar] in H.
    destruct (env_fetchall E s2) as [s3 [e3|[[|fila filas]|]]]; try discriminate.
    destruct (es_Exception (clase e3)) eqn:Hx; [discriminate|].
    simpl in H. now injection H as <-.
Qed.

(** X6.  [ejecutar_sql] talks to the database only, and at most three
    times: it opens a cursor, passes the statement to [execute] once and
    without parameters, and calls [fetchall] once, and only for a
    statement that passes the gate.  It never prints, reads the console or
    calls the model. *)
Theorem ejecutar_sql_llamadas (w : Mundo E) (consulta : string) :
  exists evs,
    traza (fst (ejecutar_sql consulta w)) = (traza w ++ evs)%list
    /\ (evs = [EvCursor]
        \/ evs = [EvCursor; EvExecute consulta []]
        \/ (es_select consulta = true
            /\ evs = [EvCursor; EvExecute consulta []; EvFetchall])).
Proof.
  unfold ejecutar_sql, bind, try_except, conexion_cursor, cursor_execute,
    cursor_fetchall, llamar, ret, puro.
  destruct (env_cursor E (est w)) as [s1 [e1|[]]].
  - exists [EvCursor]. now split; [|left].
  - cbn [est anotar].
    destruct (env_execute E consulta [] s1) as [s2 [e2|[]]].
    + exists [EvCursor; EvExecute consulta []].
      split; [|now right; left].
      destruct (es_Exception (clase e2)); cbn; now rewrite <- app_assoc.
    + destruct (es_select consulta) eqn:Hsel.
      * exists [EvCursor; EvExecute consulta []; EvFetchall].
        split; [|now right; right].
        cbn [est anotar].
        destruct (env_fetchall E s2) as [s3 [e3|[[|fila filas]|]]];
          try (cbn; now rewrite <- !app_assoc).
        destruct (es_Exception (clase e3)); cbn; now rewrite <- !app_assoc.
      * exists [EvCursor; EvExecute consulta []].
        split; [|now right; left]. cbn. now rewrite <- app_assoc.
Qed.

End EjecutorExtra.

Section Compuerta.

Lemma lower_append (a b : string) :
  PyStr.lower (a ++ b) = PyStr.lower a ++ PyStr.lower b.
Proof. induction a as [|c a IH]; simpl; [reflexivity | now rewrite IH]. Qed.

Lemma lower_char_espacio (c : ascii) :
  PyStr.isspace c = true -> PyStr.lower_char c = c.
Proof.
  destruct c as [[|] [|] [|] [|] [|] [|] [|] [|]]; intros H;
    try discriminate H; reflexivity.
Qed.

Lemma sin_espacios_lower (s : string) :
  PyStr.sin_espacios (PyStr.lower s) = true -> PyStr.sin_espacios s = true.
Proof.
  unfold PyStr.sin_espacios. induction s as [|c s IH]; [reflexivity|].
  simpl. intros H. apply andb_true_iff in H as [Hc Hs].
  rewrite (IH Hs), andb_true_r.
  destruct (PyStr.isspace c) eqn:Hsp; [|reflexivity].
  now rewrite (lower_char_espacio _ Hsp), Hsp in Hc.
Qed.

Lemma rstrip_conserva_prefijo (a b : string) :
  PyStr.sin_espacios a = true -> exists r, PyStr.rstrip (a ++ b) = a ++ r.
Proof.
  unfold PyStr.sin_espacios. induction a as [|c a IH]; intros H.
  - now exists (PyStr.rstrip b).
  - simpl in H. apply andb_true_iff in H as [Hc Ha].
    destruct (IH Ha) as [r Hr]. simpl. rewrite Hr.
    apply negb_true_iff in Hc.
    destruct (a ++ r) eqn:Har.
    + rewrite Hc. destruct a; [|discriminate]. now exists "".
    + exists r. now rewrite Har.
Qed.

(** X7.  The gate looks at the first word only: after any leading
    whitespace, a statement that starts with the letters of [select] in
    any case is accepted whatever follows, a second statement after a
    semicolon included. *)
Theorem es_select_solo_prefijo (w kw resto : string) :
  PyStr.all PyStr.isspace w = true ->
  PyStr.lower kw = "select" ->
  es_select (w ++ kw ++ resto) = true.
Proof.
  intros Hw Hkw. unfold es_select, PyStr.startswith, PyStr.strip.
  assert (Hs : PyStr.sin_espacios kw = true).
  { apply sin_espacios_lower. now rewrite Hkw. }
  rewrite (lstrip_espacios w) by assumption.
  assert (Hl : PyStr.lstrip (kw ++ resto) = kw ++ resto).
  { destruct kw as [|c kw]; [discriminate|].
    unfold PyStr.sin_espacios in Hs. simpl in Hs.
    apply andb_true_iff in Hs as [Hc _]. apply negb_true_iff in Hc.
    simpl. now rewrite Hc. }
  rewrite Hl. destruct (rstrip_conserva_prefijo kw resto Hs) as [r ->].
  rewrite lower_append, Hkw. cbn. apply prefix_vacio.
Qed.

Lemma es_select_solo_prefijo_witness :
  es_select ("  " ++ "SeLeCt" ++ " 1; DROP TABLE users;") = true.
Proof.
  apply (es_select_solo_prefijo "  " "SeLeCt" " 1; DROP TABLE users;");
    reflexivity.
Defined.

End Compuerta.

Lemma ejecutar_sql_lo_que_escapa_witness :
  snd (env_cursor
         (entorno_guion (inl (Exc DatabaseError "MySQL Connection not available."))
            (inr tt) (inr None)) tt)
  = inl (Exc DatabaseError "MySQL Connection not available.")
  \/ es_Exception DatabaseError = false.
Proof.
  apply (@ejecutar_sql_lo_que_escapa
           (entorno_guion (inl (Exc DatabaseError "MySQL Connection not available."))
              (inr tt) (inr None))
           (mundo_guion _ _ _) "SELECT 1"
           (Exc DatabaseError "MySQL Connection not available.")).
  reflexivity.
Defined.

(** ** The result formatter, for several rows *)

Section FormatoExtra.

Lemma lineas_tuplas (filas : list (list valor)) (i : nat) :
  exists ls,
    lineas i (map VTuple filas) = inr ls
    /\ List.length ls = List.length filas
    /\ forall k fila, nth_error filas k = Some fila ->
                      nth_error ls k = Some (linea_numerada (i + k) fila).
Proof.
  revert i. induction filas as [|fila filas IH]; intros i.
  - exists []. repeat split. intros [|k] f; discriminate.
  - destruct (IH (S i)) as (ls & Hl & Hn & Hk).
    exists (linea_numerada i fila :: ls). cbn [map lineas iterar ligar].
    rewrite Hl. cbn [ligar]. repeat split.
    + simpl. now rewrite Hn.
    + intros [|k] f Hf; simpl in Hf |- *.
      * injection Hf as <-. now rewrite Nat.add_0_r.
      * rewrite (Hk _ _ Hf). now rewrite Nat.add_succ_r.
Qed.

(** X8.  For a number of rows other than one, [formatear_resultado]
    returns a text with one line per row, in order, lines separated by a
    line feed: line [k] (from 0) is the number [k+1], a period and a space,
    then the values of row [k] rendered with [str] and joined with a comma
    and a space. *)
Theorem formatear_resultado_listado (filas : list (list valor)) :
  List.length filas <> 1%nat ->
  exists ls,
    formatear_resultado (map VTuple filas) = inr (VStr (String.concat NL ls))
    /\ List.length ls = List.length filas
    /\ forall k fila, nth_error filas k = Some fila ->
                      nth_error ls k = Some (linea_numerada k fila).
Proof.
  intros Hn. destruct (lineas_tuplas filas 0) as (ls & Hl & Hlen & Hk).
  exists ls. repeat split; [|assumption|exact Hk].
  unfold formatear_resultado. rewrite length_map.
  apply Nat.eqb_neq in Hn. now rewrite Hn, Hl.
Qed.

Lemma formatear_resultado_listado_witness :
  exists ls,
    formatear_resultado (map VTuple [[VInt 1; VStr "Ana"]; [VInt 2; VStr "Luis"]])
    = inr (VStr (String.concat NL ls))
    /\ List.length ls = 2%nat
    /\ forall k fila,
         nth_error [[VInt 1; VStr "Ana"]; [VInt 2; VStr "Luis"]] k = Some fila ->
         nth_error ls k = Some (linea_numerada k fila).
Proof.
  apply (formatear_resultado_listado [[VInt 1; VStr "Ana"]; [VInt 2; VStr "Luis"]]).
  simpl. lia.
Defined.

Lemma lineas_de_tuplas (filas : list valor) (i : nat) :
  forallb es_tupla filas = true -> exists ls, lineas i filas = inr ls.
Proof.
  revert i. induction filas as [|fila filas IH]; intros i H.
  - now exists [].
  - simpl in H. apply andb_true_iff in H as [Hf Hr].
    destruct fila as [| | |vs]; try discriminate.
    destruct (IH (S i) Hr) as [ls Hl].
    eexists. cbn [lineas iterar ligar]. rewrite Hl. reflexivity.
Qed.

End FormatoExtra.

Section Tuberia.

Context {E : Entorno}.

(** X9.  With a driver whose [fetchall] hands back tuples only, as a
    database driver does, whatever [ejecutar_sql] returns can be formatted:
    [formatear_resultado] does not raise on it. *)
Theorem formatear_tras_ejecutar (w : Mundo E) (consulta : string) (filas : list valor) :
  (forall s s' rows,
      env_fetchall E s = (s', inr (Some rows)) -> forallb es_tupla rows = true) ->
  snd (ejecutar_sql consulta w) = inr filas ->
  exists v, formatear_resultado filas = inr v.
Proof.
  intros Hdrv.
  unfold ejecutar_sql, bind, try_except, conexion_cursor, cursor_execute,
    cursor_fetchall, llamar, ret, puro.
  destruct (env_cursor E (est w)) as [s1 [e1|[]]]; [discriminate|].
  cbn [est anotar].
  destruct (env_execute E consulta [] s1) as [s2 [e2|[]]].
  - destruct (es_Exception (clase e2)); [|discriminate].
    intros [= <-]. now eexists.
  - destruct (es_select consulta); [|intros [= <-]; now eexists].
    cbn [est anotar].
    destruct (env_fetchall E s2) as [s3 [e3|r]] eqn:Hf.
    + destruct (es_Exception (clase e3)); [|discriminate].
      intros [= <-]. now eexists.
    + destruct r as [[|fila rows]|]; try (intros [= <-]; now eexists).
      intros [= <-]. pose proof (Hdrv _ _ _ Hf) as Ht.
      unfold formatear_resultado.
      destruct (List.length (fila :: rows) =? 1)%nat; [now eexists|].
      destruct (lineas_de_tuplas _ 0 Ht) as [ls ->]. now eexists.
Qed.

End Tuberia.

Lemma formatear_tras_ejecutar_witness :
  exists v,
    formatear_resultado [VTuple [VInt 1; VStr "Ana"]; VTuple [VInt 2; VStr "Luis"]]
    = inr v.
Proof.
  apply (@formatear_tras_ejecutar
           (entorno_guion (inr tt) (inr tt)
              (inr (Some [VTuple [VInt 1; VStr "Ana"]; VTuple [VInt 2; VStr "Luis"]])))
           (mundo_guion _ _ _) "SELECT * FROM users;").
  - intros s s' rows H. injection H as _ <-. reflexivity.
  - reflexivity.
Defined.

(** ** The Markdown cleanup, beyond idempotence *)

Section MarkdownExtra.

Lemma length_rstrip (s : string) :
  String.length (PyStr.rstrip s) <= String.length s.
Proof.
  induction s as [|c s IH]; simpl; [lia|].
  destruct (PyStr.rstrip s); [destruct (PyStr.isspace c)|]; simpl in *; lia.
Qed.

Lemma length_strip (s : string) :
  String.length (PyStr.strip s) <= String.length s.
Proof.
  unfold PyStr.strip. pose proof (length_rstrip (PyStr.lstrip s)).
  pose proof (length_lstrip s). lia.
Qed.

Lemma lazy_until_length (d s g r : string) :
  Re.lazy_until d s = Some (g, r) ->
  String.length g + String.length d + String.length r = String.length s.
Proof.
  revert g r. induction s as [|c s IH]; intros g r.
  - cbn [Re.lazy_until]. destruct (prefix d "") eqn:Hp; [|discriminate].
    intros H. assert (g = "" /\ r = PyStr.drop (String.length d) "")
      as [-> ->] by (split; congruence).
    apply prefix_length in Hp. rewrite length_drop.
    change (String.length "") with 0 in *. lia.
  - cbn [Re.lazy_until]. destruct (prefix d (String c s)) eqn:Hp.
    + intros H. assert (g = "" /\ r = PyStr.drop (String.length d) (String c s))
        as [-> ->] by (split; congruence).
      apply prefix_length in Hp. rewrite length_drop.
      change (String.length "") with 0. lia.
    + destruct (Re.dot c); [|discriminate].
      destruct (Re.lazy_until d s) as [[g' r']|] eqn:Hl; [|discriminate].
      intros H. assert (g = String c g' /\ r = r') as [-> ->] by (split; congruence).
      specialize (IH _ _ eq_refl). cbn [String.length]. lia.
Qed.

Lemma match_delim_length (d s g r : string) :
  Re.match_delim d s = Some (g, r) ->
  String.length g + 2 * String.length d + String.length r = String.length s.
Proof.
  unfold Re.match_delim. destruct (prefix d s) eqn:Hp; [|discriminate].
  pose proof (length_drop (String.length d) s) as Hd.
  apply prefix_length in Hp.
  destruct (PyStr.drop (String.length d) s) as [|c t]; [discriminate|].
  destruct (Re.dot c); [|discriminate].
  destruct (Re.lazy_until d t) as [[g' r']|] eqn:Hl; [|discriminate].
  intros H. assert (g = String c g' /\ r = r') as [-> ->] by (split; congruence).
  apply lazy_until_length in Hl. cbn [String.length] in *. lia.
Qed.

Lemma sub_delim_aux_length (n : nat) (d s : string) :
  String.length (Re.sub_delim_aux n d s) <= String.length s.
Proof.
  revert s. induction n as [|n IH]; intros s; [simpl; lia|].
  cbn [Re.sub_delim_aux].
  destruct (Re.match_delim d s) as [[g r]|] eqn:Hm.
  - apply match_delim_length in Hm. rewrite length_append.
    specialize (IH r). lia.
  - destruct s as [|c s]; [simpl; lia|]. simpl. specialize (IH s). lia.
Qed.

Lemma sub_delim_length (d s : string) :
  String.length (Re.sub_delim d s) <= String.length s.
Proof. apply sub_delim_aux_length. Qed.

(** X10.  The Markdown cleanup never makes a text longer. *)
Theorem limpiar_markdown_no_alarga (t : string) :
  String.length (limpiar_markdown t) <= String.length t.
Proof.
  unfold limpiar_markdown. simpl fold_left.
  pose proof (length_strip
    (Re.sub_delim "`" (Re.sub_delim "_" (Re.sub_delim "*"
       (Re.sub_delim "__" (Re.sub_delim "**" t)))))) as H0.
  pose proof (sub_delim_length "`" (Re.sub_delim "_" (Re.sub_delim "*"
       (Re.sub_delim "__" (Re.sub_delim "**" t))))) as H1.
  pose proof (sub_delim_length "_" (Re.sub_delim "*"
       (Re.sub_delim "__" (Re.sub_delim "**" t)))) as H2.
  pose proof (sub_delim_length "*" (Re.sub_delim "__" (Re.sub_delim "**" t))) as H3.
  pose proof (sub_delim_length "__" (Re.sub_delim "**" t)) as H4.
  pose proof (sub_delim_length "**" t) as H5.
  lia.
Qed.

(** X11.  A text without asterisk, underscore or backquote goes through
    the Markdown cleanup unchanged but for its leading and trailing
    whitespace. *)
Theorem limpiar_markdown_texto_plano (t : string) :
  sin_marcas t = true -> limpiar_markdown t = PyStr.strip t.
Proof. apply limpiar_markdown_sin_marcas. Qed.

Lemma limpiar_markdown_texto_plano_witness :
  limpiar_markdown "  Hay 2 usuarios.  " = PyStr.strip "  Hay 2 usuarios.  ".
Proof. apply (limpiar_markdown_texto_plano "  Hay 2 usuarios.  "). reflexivity. Defined.

Lemma prefix_append_mismo (d y : string) : prefix d (d ++ y) = true.
Proof.
  induction d as [|c d IH]; simpl; [apply prefix_vacio|].
  destruct (ascii_dec c c); [assumption | contradiction].
Qed.

Lemma drop_append_mismo (d y : string) : PyStr.drop (String.length d) (d ++ y) = y.
Proof. induction d as [|c d IH]; simpl; [now destruct y | assumption]. Qed.

Lemma prefix_sin_marca (m : ascii) (d s : string) :
  PyStr.contains m s = false -> s <> "" -> prefix (String m d) s = false.
Proof.
  destruct s as [|a s]; [contradiction|]. simpl. intros H _.
  apply orb_false_iff in H as [Ha _].
  destruct (ascii_dec m a) as [->|]; [|reflexivity].
  now rewrite Ascii.eqb_refl in Ha.
Qed.

Lemma lazy_until_cierre (m : ascii) (d x : string) :
  PyStr.contains m x = false -> sin_lf x = true ->
  Re.lazy_until (String m d) (x ++ String m d) = Some (x, "").
Proof.
  unfold sin_lf. induction x as [|a x IH]; intros Hm Hl.
  - cbn [append]. cbn [Re.lazy_until].
    rewrite (prefix_append_mismo (String m d) "") || idtac.
    replace (prefix (String m d) (String m d)) with true.
    + f_equal. f_equal. pose proof (drop_append_mismo (String m d) "") as H.
      now rewrite append_nil_r in H.
    + symmetry. pose proof (prefix_append_mismo (String m d) "") as H.
      now rewrite append_nil_r in H.
  - simpl in Hm, Hl. apply orb_false_iff in Hm as [Ha Hm].
    apply negb_true_iff in Hl. apply orb_false_iff in Hl as [Hlf Hl].
    cbn [append Re.lazy_until].
    replace (prefix (String m d) (String a (x ++ String m d))) with false.
    + unfold Re.dot. rewrite Hlf. cbn [negb].
      rewrite IH; [reflexivity | assumption | now apply negb_true_iff].
    + symmetry. simpl. destruct (ascii_dec m a) as [->|]; [|reflexivity].
      now rewrite Ascii.eqb_refl in Ha.
Qed.

Lemma sub_delim_aux_vacio (n : nat) (d : string) : Re.sub_delim_aux n d "" = "".
Proof.
  destruct n; [reflexivity|]. cbn [Re.sub_delim_aux].
  unfold Re.match_delim. destruct (prefix d "") eqn:Hp; [|reflexivity].
  destruct d; [reflexivity | discriminate].
Qed.

(** The pattern of a delimiter unwraps a one-line text between two of
    them when the text does not hold the first character of the
    delimiter. *)
Lemma sub_delim_envuelto (m : ascii) (d x : string) :
  PyStr.contains m x = false -> sin_lf x = true -> x <> "" ->
  Re.sub_delim (String m d) (String m d ++ x ++ String m d) = x.
Proof.
  intros Hm Hl Hne. unfold Re.sub_delim.
  assert (Hmatch : Re.match_delim (String m d) (String m d ++ x ++ String m d)
                   = Some (x, "")).
  { unfold Re.match_delim. rewrite prefix_append_mismo, drop_append_mismo.
    destruct x as [|a x]; [contradiction|].
    unfold sin_lf in Hl. simpl in Hm, Hl.
    apply orb_false_iff in Hm as [_ Hm].
    apply negb_true_iff in Hl. apply orb_false_iff in Hl as [Hlf Hl].
    cbn [append]. unfold Re.dot. rewrite Hlf. cbn [negb].
    rewrite lazy_until_cierre; [reflexivity | assumption |].
    unfold sin_lf. now apply negb_true_iff. }
  destruct (String.length (String m d ++ x ++ String m d)) as [|n] eqn:Hn;
    [discriminate|].
  cbn [Re.sub_delim_aux]. rewrite Hmatch, sub_delim_aux_vacio.
  apply append_nil_r.
Qed.

(** The pattern of the doubled marker leaves alone a text between two
    single markers. *)
Lemma sub_delim_doble_cola (m : ascii) (n : nat) (x : string) :
  PyStr.contains m x = false ->
  Re.sub_delim_aux n (String m (String m "")) (x ++ String m "") = x ++ String m "".
Proof.
  revert x. induction n as [|n IH]; intros x Hm; [reflexivity|].
  cbn [Re.sub_delim_aux]. destruct x as [|a x].
  - cbn [append]. unfold Re.match_delim. simpl.
    destruct (ascii_dec m m); [|contradiction].
    now rewrite sub_delim_aux_vacio.
  - simpl in Hm. apply orb_false_iff in Hm as [Ha Hm].
    cbn [append]. unfold Re.match_delim. simpl.
    destruct (ascii_dec m a) as [->|]; [now rewrite Ascii.eqb_refl in Ha|].
    now rewrite IH.
Qed.

Lemma sub_delim_doble_simple (m : ascii) (x : string) :
  PyStr.contains m x = false -> x <> "" ->
  Re.sub_delim (String m (String m "")) (String m "" ++ x ++ String m "")
  = String m "" ++ x ++ String m "".
Proof.
  intros Hm Hne. unfold Re.sub_delim. cbn [append String.length Re.sub_delim_aux].
  destruct x as [|a x]; [contradiction|].
  pose proof Hm as Hm'. simpl in Hm'. apply orb_false_iff in Hm' as [Ha _].
  unfold Re.match_delim. cbn [append]. simpl prefix.
  destruct (ascii_dec m m); [|contradiction].
  destruct (ascii_dec m a) as [->|]; [now rewrite Ascii.eqb_refl in Ha|].
  f_equal. change (String a (x ++ String m "")) with (String a x ++ String m "").
  now apply sub_delim_doble_cola.
Qed.

Lemma contains_append (c : ascii) (a b : string) :
  PyStr.contains c (a ++ b) = PyStr.contains c a || PyStr.contains c b.
Proof.
  induction a as [|x a IH]; simpl; [reflexivity|]. now rewrite IH, orb_assoc.
Qed.

(** X12.  Emphasis is unwrapped: a non-empty one-line text without
    asterisk, underscore or backquote, put between two copies of any of
    the five delimiters (two asterisks, two underscores, one asterisk, one
    underscore, one backquote), comes out as the text itself, stripped. *)
Theorem limpiar_markdown_desenvuelve (d x : string) :
  In d patrones -> sin_marcas x = true -> sin_lf x = true -> x <> "" ->
  limpiar_markdown (d ++ x ++ d) = PyStr.strip x.
Proof.
  intros Hd Hx Hl Hne.
  unfold sin_marcas in Hx.
  apply andb_true_iff in Hx as [Hx H3]. apply andb_true_iff in Hx as [H1 H2].
  apply negb_true_iff in H1, H2, H3.
  unfold limpiar_markdown. simpl fold_left.
  assert (Hc : forall c m, PyStr.contains c x = false -> Ascii.eqb m c = false ->
               PyStr.contains c (String m "" ++ x ++ String m "") = false).
  { intros c m Hcx Hmc. simpl. rewrite contains_append, Hcx, Hmc. simpl.
    now rewrite Hmc. }
  assert (Hfin : forall y, y = x ->
            PyStr.strip (Re.sub_delim "`" y) = PyStr.strip x).
  { intros y ->. now rewrite (sub_delim_sin_marca "`" "" x H3). }
  simpl in Hd. destruct Hd as [<-|[<-|[<-|[<-|[<-|[]]]]]].
  - rewrite (sub_delim_envuelto "*" "*" x H1 Hl Hne).
    rewrite (sub_delim_sin_marca "_" "_" x H2).
    rewrite (sub_delim_sin_marca "*" "" x H1).
    rewrite (sub_delim_sin_marca "_" "" x H2).
    now apply Hfin.
  - rewrite (sub_delim_sin_marca "*" "*" ("__" ++ x ++ "__")).
    + rewrite (sub_delim_envuelto "_" "_" x H2 Hl Hne).
      rewrite (sub_delim_sin_marca "*" "" x H1).
      rewrite (sub_delim_sin_marca "_" "" x H2).
      now apply Hfin.
    + simpl. rewrite contains_append, H1. reflexivity.
  - rewrite (sub_delim_doble_simple "*" x H1 Hne).
    rewrite (sub_delim_sin_marca "_" "_" ("*" ++ x ++ "*")) by (now apply Hc).
    rewrite (sub_delim_envuelto "*" "" x H1 Hl Hne).
    rewrite (sub_delim_sin_marca "_" "" x H2).
    now apply Hfin.
  - rewrite (sub_delim_sin_marca "*" "*" ("_" ++ x ++ "_")) by (now apply Hc).
    rewrite (sub_delim_doble_simple "_" x H2 Hne).
    rewrite (sub_delim_sin_marca "*" "" ("_" ++ x ++ "_")) by (now apply Hc).
    rewrite (sub_delim_envuelto "_" "" x H2 Hl Hne).
    now apply Hfin.
  - rewrite (sub_delim_sin_marca "*" "*" ("`" ++ x ++ "`")) by (now apply Hc).
    rewrite (sub_delim_sin_marca "_" "_" ("`" ++ x ++ "`")) by (now apply Hc).
    rewrite (sub_delim_sin_marca "*" "" ("`" ++ x ++ "`")) by (now apply Hc).
    rewrite (sub_delim_sin_marca "_" "" ("`" ++ x ++ "`")) by (now apply Hc).
    now rewrite (sub_delim_envuelto "`" "" x H3 Hl Hne).
Qed.

Lemma limpiar_markdown_desenvuelve_witness :
  limpiar_markdown ("__" ++ "42 usuarios" ++ "__") = PyStr.strip "42 usuarios".
Proof.
  apply (limpiar_markdown_desenvuelve "__" "42 usuarios");
    [right; left; reflexivity | reflexivity | reflexivity | discriminate].
Defined.

End MarkdownExtra.

(** ** The fence removal, beyond the round trip *)

Section FencesExtra.

Lemma contains_lstrip (c : ascii) (s : string) :
  PyStr.contains c s = false -> PyStr.contains c (PyStr.lstrip s) = false.
Proof.
  induction s as [|a s IH]; [reflexivity|].
  intros H. simpl PyStr.lstrip. destruct (PyStr.isspace a); [|exact H].
  simpl in H. apply orb_false_iff in H as [_ H]. now apply IH.
Qed.

Lemma contains_rstrip (c : ascii) (s : string) :
  PyStr.contains c s = false -> PyStr.contains c (PyStr.rstrip s) = false.
Proof.
  induction s as [|a s IH]; [reflexivity|].
  intros H. simpl in H. apply orb_false_iff in H as [Ha H].
  specialize (IH H). simpl. destruct (PyStr.rstrip s) as [|b r].
  - destruct (PyStr.isspace a); [reflexivity|]. simpl. now rewrite Ha.
  - simpl in IH |- *. now rewrite Ha, IH.
Qed.

Lemma match_fence_sin_backquote (s : string) :
  PyStr.contains "`"%char s = false -> Re.match_fence s = None.
Proof.
  intros H. unfold Re.match_fence.
  destruct s as [|a s]; [reflexivity|].
  rewrite (prefix_sin_marca "`" "``sql" (String a s) H) by discriminate.
  pose proof (contains_lstrip _ _ H) as Hl.
  destruct (PyStr.lstrip (String a s)) as [|b t] eqn:Ht; [reflexivity|].
  now rewrite (prefix_sin_marca "`" "``" (String b t) Hl) by discriminate.
Qed.

Lemma sub_fence_sin_backquote (s : string) :
  PyStr.contains "`"%char s = false -> Re.sub_fence s = s.
Proof.
  unfold Re.sub_fence. generalize (String.length s) as n.
  intros n; revert s. induction n as [|n IH]; intros s H; [reflexivity|].
  cbn [Re.sub_fence_aux]. rewrite match_fence_sin_backquote by assumption.
  destruct s as [|a s]; [reflexivity|].
  simpl in H. apply orb_false_iff in H as [_ H]. now rewrite IH.
Qed.

(** X13.  A reply without any backquote comes out of the post-processing
    of [generar_sql] with its leading and trailing whitespace removed and
    nothing else changed. *)
Theorem extraer_sql_sin_fences (contenido : string) :
  sin_backquote contenido = true -> extraer_sql contenido = PyStr.strip contenido.
Proof.
  unfold sin_backquote, extraer_sql, PyStr.strip. intros H.
  apply negb_true_iff in H.
  apply sub_fence_sin_backquote, contains_rstrip, contains_lstrip, H.
Qed.

Lemma extraer_sql_sin_fences_witness :
  extraer_sql "  SELECT COUNT(*) FROM users;  "
  = PyStr.strip "  SELECT COUNT(*) FROM users;  ".
Proof.
  apply (extraer_sql_sin_fences "  SELECT COUNT(*) FROM users;  "). reflexivity.
Defined.

(** X14.  With a fence that carries no language tag, the line feed after
    the opening marker stays in the statement: for a reply [r] without
    backquotes that is not blank, three backquotes, a line feed, [r], a
    line feed and three backquotes give a line feed followed by [r]
    without its trailing whitespace, and not the stripped [r]. *)
Theorem extraer_sql_fence_sin_etiqueta (r : string) :
  sin_backquote r = true -> PyStr.rstrip r <> "" ->
  extraer_sql ("```" ++ NL ++ r ++ NL ++ "```") = NL ++ PyStr.rstrip r.
Proof.
  unfold sin_backquote. intros Hb Hne. apply negb_true_iff in Hb.
  unfold extraer_sql.
  assert (Hstrip : PyStr.strip ("```" ++ NL ++ r ++ NL ++ "```")
                   = "```" ++ NL ++ r ++ NL ++ "```").
  { unfold PyStr.strip.
    replace (PyStr.lstrip ("```" ++ NL ++ r ++ NL ++ "```"))
      with ("```" ++ NL ++ r ++ NL ++ "```") by reflexivity.
    rewrite <- !append_assoc.
    apply rstrip_append_fijo; [reflexivity | discriminate]. }
  rewrite Hstrip, sub_fence_paso.
  replace (Re.match_fence ("```" ++ NL ++ r ++ NL ++ "```"))
    with (Some (NL ++ r ++ NL ++ "```")) by reflexivity.
  destruct (rstrip_descompone (NL ++ r)) as (w & Hw & Hd).
  assert (Hr : PyStr.rstrip (NL ++ r) = NL ++ PyStr.rstrip r).
  { simpl. destruct (PyStr.rstrip r); [contradiction | reflexivity]. }
  rewrite <- (append_assoc NL r), Hd, append_assoc, <- (append_assoc w NL "```").
  rewrite sub_fence_cierre.
  - rewrite Hr. apply sub_fence_sin_backquote.
    simpl. now apply contains_rstrip.
  - apply rstrip_idempotente.
  - now apply all_isspace_append.
  - destruct w; discriminate.
Qed.

Lemma extraer_sql_fence_sin_etiqueta_witness :
  extraer_sql ("```" ++ NL ++ "SELECT 1;" ++ NL ++ "```") = NL ++ PyStr.rstrip "SELECT 1;".
Proof.
  apply (extraer_sql_fence_sin_etiqueta "SELECT 1;"); [reflexivity | discriminate].
Defined.

End FencesExtra.

(** ** The loop, over several cycles and on a malformed reply *)

Section BucleExtra.

Context {E : Entorno}.

(** X15.  A reply of the model that decodes but has no
    [choices[0].message.content] ends the session: for a question that is
    neither blank nor [exit], the exception raised by the access to the
    reply (a [KeyError], an [IndexError] or a [TypeError]) leaves
    [generar_sql], the cycle and the loop. *)
Theorem bucle_respuesta_mal_formada (w : Mundo E) (esquema : string)
    (modelo : ModeloRemoto) (s1 s2 : estado E) (linea : string) (resp : Respuesta)
    (j : json) (e : excepcion) (n : nat) :
  env_input E PROMPT (est w) = (s1, inr linea) ->
  PyStr.lower (PyStr.strip linea) <> "exit" ->
  PyStr.strip linea <> "" ->
  env_post E (direccion_chat modelo)
    (carga_de modelo (mensajes_sql esquema (PyStr.strip linea))
       (QArith_base.Qmake 1 10) (QArith_base.Qmake 9 10) 4096) s1 = (s2, inr resp) ->
  (status_code resp < 400 \/ 600 <= status_code resp)%Z ->
  cuerpo resp = inr j ->
  contenido j = inl e ->
  snd (bucle (S n) esquema modelo w) = inl e.
Proof.
  intros Hin Hne Hnb Hp Hs Hc Hj.
  apply String.eqb_neq in Hne, Hnb.
  cbn [bucle]. unfold bind at 1. unfold ciclo. unfold bind at 1.
  unfold input, llamar. rewrite Hin, Hne, Hnb.
  unfold bind at 1. unfold generar_sql. unfold bind at 1.
  unfold generar_respuesta, try_except, solicitar, bind, requests_post, llamar, puro.
  cbn [est anotar]. rewrite Hp, (raise_for_status_ok _ Hs), Hc, Hj. reflexivity.
Qed.



End BucleExtra.

Lemma bucle_respuesta_mal_formada_witness :
  snd (bucle 1 "" modelo_lm (simulado ["How many users are there?"] [ok200_json (JObj [])]))
  = inl (Exc KeyError "'choices'").
Proof.
  refine (@bucle_respuesta_mal_formada Sim.entorno
            (simulado ["How many users are there?"] [ok200_json (JObj [])])
            "" modelo_lm
            (est (simulado [] [ok200_json (JObj [])]))
            (est (simulado [] []))
            "How many users are there?"
            {| status_code := 200; reason := "OK";
               url := "http://192.168.1.60:1234/v1/chat/completions";
               cuerpo := inr (JObj []) |}
            (JObj []) (Exc KeyError "'choices'") 0 _ _ _ _ _ _ _);
    try reflexivity; try (vm_compute; discriminate).
  left. reflexivity.
Defined.

Section BucleSimulado.

(** X17.  Blank lines never reach the model or the database, however many
    there are: when the user types lines that are empty after stripping
    and then a line that reads [exit] in any case, the loop prints the
    blank-question notice once per blank line, reads the exit line,
    stops, and has made no other call; the lines after [exit] are not
    read. *)
Theorem bucle_lineas_en_blanco (blancos : list string) (salir : string)
    (resto : list string) (s : Sim.t) (t : list evento) (n : nat)
    (esquema : string) (modelo : ModeloRemoto) :
  Forall (fun b => PyStr.strip b = "") blancos ->
  PyStr.lower (PyStr.strip salir) = "exit" ->
  bucle (S (List.length blancos + n)) esquema modelo
    (@Build_Mundo Sim.entorno (con_entrada (blancos ++ salir :: resto) s) t)
  = (@Build_Mundo Sim.entorno (con_entrada resto s)
       (t ++ repetir (List.length blancos) eventos_blanco ++ [EvInput PROMPT]),
     inr true).
Proof.
  intros Hb Hs. revert t.
  induction Hb as [|b blancos Hb0 Hb IH]; intros t.
  - cbn [List.length app Nat.add repetir bucle]. unfold bind at 1.
    unfold ciclo. unfold bind at 1. unfold input, llamar.
    cbn [env_input Sim.entorno est Sim.input con_entrada Sim.entrada].
    rewrite Hs. reflexivity.
  - cbn [List.length app Nat.add bucle]. unfold bind at 1.
    unfold ciclo. unfold bind at 1. unfold input, llamar.
    cbn [env_input Sim.entorno est Sim.input con_entrada Sim.entrada].
    rewrite Hb0. cbn [PyStr.lower String.eqb]. cbn.
    change (bucle (S (List.length blancos + n)) esquema modelo
              (@Build_Mundo Sim.entorno (con_entrada (blancos ++ salir :: resto) s)
                 ((t ++ [EvInput PROMPT]) ++ [EvPrint MSG_VACIA]))
            = (@Build_Mundo Sim.entorno (con_entrada resto s)
                 (t ++ (eventos_blanco ++ repetir (List.length blancos) eventos_blanco)
                    ++ [EvInput PROMPT]), inr true)).
    rewrite IH. f_equal. f_equal. unfold eventos_blanco.
    rewrite <- !app_assoc. reflexivity.
Qed.

Lemma bucle_lineas_en_blanco_witness :
  bucle 3 "" modelo_lm
    (@Build_Mundo Sim.entorno (con_entrada (["  "; ""] ++ " Exit " :: ["x"]) Sim.inicial) [])
  = (@Build_Mundo Sim.entorno (con_entrada ["x"] Sim.inicial)
       ([] ++ repetir 2 eventos_blanco ++ [EvInput PROMPT]), inr true).
Proof.
  apply (bucle_lineas_en_blanco ["  "; ""] " Exit " ["x"] Sim.inicial [] 0 "" modelo_lm).
  - repeat constructor.
  - reflexivity.
Defined.

End BucleSimulado.

(** ** Loading the database configuration *)

Section Configuracion.

Lemma antes_de_append (sep : ascii) (p q : string) :
  PyStr.contains sep p = false -> antes_de sep (p ++ String sep q) = p.
Proof.
  induction p as [|c p IH]; simpl.
  - now rewrite Ascii.eqb_refl.
  - intros H. apply orb_false_iff in H as [Hc Hp]. now rewrite Hc, IH.
Qed.

Lemma antes_de_sin_separador (sep : ascii) (s : string) :
  PyStr.contains sep (antes_de sep s) = false.
Proof.
  induction s as [|c s IH]; [reflexivity|].
  simpl. destruct (Ascii.eqb c sep) eqn:Hc; [reflexivity|].
  simpl. now rewrite Hc, IH.
Qed.

Lemma item_clave_dict (kvs : list (string * json)) (k : string) (v : json) :
  buscar k kvs = Some v -> item_clave (JObj kvs) k = inr v.
Proof. intros H. simpl. now rewrite H. Qed.

(** X18.  From a compose document whose [mysql] service maps its first
    port as [p:q] and whose [environment] is a dictionary with the three
    MySQL keys, [cargar_config_bd] builds the configuration with host
    [localhost], the port [p] (the part before the first colon, as text),
    the user and database as found, and the password turned into text
    with [str]. *)
Theorem cargar_config_bd_ok (top sv my en : list (string * json)) (p q : string)
    (otros : list json) (u pw db : json) :
  buscar "services" top = Some (JObj sv) ->
  buscar "mysql" sv = Some (JObj my) ->
  buscar "ports" my = Some (JArr (JStr (p ++ ":" ++ q) :: otros)) ->
  buscar "environment" my = Some (JObj en) ->
  buscar "MYSQL_USER" en = Some u ->
  buscar "MYSQL_PASSWORD" en = Some pw ->
  buscar "MYSQL_DATABASE" en = Some db ->
  PyStr.contains ":"%char p = false ->
  cargar_config_bd (JObj top)
  = inr {| host := "localhost"; port := p; user := u;
           password := str_json pw; database := db |}.
Proof.
  intros H1 H2 H3 H4 H5 H6 H7 Hp. unfold cargar_config_bd.
  rewrite (item_clave_dict _ _ _ H1). cbn [ligar].
  rewrite (item_clave_dict _ _ _ H2). cbn [ligar].
  rewrite (item_clave_dict _ _ _ H3). cbn [ligar].
  rewrite (item_clave_dict _ _ _ H4). cbn [ligar item_cero receptor_split].
  rewrite (item_clave_dict _ _ _ H5). cbn [ligar].
  rewrite (item_clave_dict _ _ _ H6). cbn [ligar].
  rewrite (item_clave_dict _ _ _ H7). cbn [ligar].
  change (p ++ ":" ++ q) with (p ++ String ":" q).
  now rewrite (antes_de_append ":" p q Hp).
Qed.

Lemma cargar_config_bd_ok_witness :
  cargar_config_bd compose_ejemplo
  = inr {| host := "localhost"; port := "3307"; user := JStr "app";
           password := "1234"; database := JStr "tienda" |}.
Proof.
  refine (cargar_config_bd_ok _ _ _ _ "3307" "3306" [] (JStr "app") (JNum 1234)
            (JStr "tienda") _ _ _ _ _ _ _ _); reflexivity.
Defined.

Lemma ligar_inr {A B} (r : resultado_de A) (f : A -> resultado_de B) (b : B) :
  ligar r f = inr b -> exists a, r = inr a /\ f a = inr b.
Proof. destruct r as [e|a]; [discriminate|]. intros H. now exists a. Qed.

Lemma ligar_inl {A B} (r : resultado_de A) (f : A -> resultado_de B) (e : excepcion) :
  ligar r f = inl e -> r = inl e \/ exists a, r = inr a /\ f a = inl e.
Proof.
  destruct r as [e'|a]; intros H; [left | right; now exists a].
  simpl in H. now injection H as <-.
Qed.

(** X19.  Whatever the document, a configuration that [cargar_config_bd]
    returns has the host [localhost] and a port without any colon. *)
Theorem cargar_config_bd_puerto (docker_compose : json) (cfg : ConfigBD) :
  cargar_config_bd docker_compose = inr cfg ->
  host cfg = "localhost" /\ PyStr.contains ":"%char (port cfg) = false.
Proof.
  unfold cargar_config_bd. intros H.
  repeat (apply ligar_inr in H; destruct H as (? & _ & H)).
  injection H as <-. cbn [host port]. split; [reflexivity|].
  apply antes_de_sin_separador.
Qed.

Lemma cargar_config_bd_puerto_witness :
  host {| host := "localhost"; port := "3307"; user := JStr "app";
          password := "1234"; database := JStr "tienda" |} = "localhost"
  /\ PyStr.contains ":"%char
       (port {| host := "localhost"; port := "3307"; user := JStr "app";
                password := "1234"; database := JStr "tienda" |}) = false.
Proof.
  apply (cargar_config_bd_puerto compose_ejemplo). reflexivity.
Defined.

Lemma item_clave_clase (j : json) (k : string) (e : excepcion) :
  item_clave j k = inl e -> clase_de_acceso (clase e) = true.
Proof.
  destruct j as [| | | | |kvs]; simpl; try (intros [= <-]; reflexivity).
  destruct (buscar k kvs); [discriminate|]. now intros [= <-].
Qed.

Lemma item_cero_clase (j : json) (e : excepcion) :
  item_cero j = inl e -> clase_de_acceso (clase e) = true.
Proof.
  destruct j as [| | |[|c s]|[|x xs]|kvs]; simpl;
    try discriminate; now intros [= <-].
Qed.

Lemma receptor_split_clase (j : json) (e : excepcion) :
  receptor_split j = inl e -> clase_de_acceso (clase e) = true.
Proof. destruct j; simpl; try discriminate; now intros [= <-]. Qed.

(** X20.  When [cargar_config_bd] fails on a document, the exception is a
    [KeyError] (a key is missing), an [IndexError] (no port is listed), a
    [TypeError] (a level is not a dictionary or a list) or an
    [AttributeError] (the first port is not text): nothing of it is
    caught or turned into a default. *)
Theorem cargar_config_bd_errores (docker_compose : json) (e : excepcion) :
  cargar_config_bd docker_compose = inl e -> clase_de_acceso (clase e) = true.
Proof.
  unfold cargar_config_bd. intros H.
  repeat (apply ligar_inl in H;
          destruct H as [H | (? & _ & H)];
          [first [ now apply item_clave_clase in H
                 | now apply item_cero_clase in H
                 | now apply receptor_split_clase in H ] | ]).
  discriminate.
Qed.

Lemma cargar_config_bd_errores_witness :
  cargar_config_bd JNull = inl (Exc TypeError "'NoneType' object is not subscriptable")
  /\ clase_de_acceso TypeError = true.
Proof.
  split; [reflexivity|].
  apply (cargar_config_bd_errores JNull
           (Exc TypeError "'NoneType' object is not subscriptable")).
  reflexivity.
Defined.

(** X21.  An [environment] written as a list of [KEY=value] entries, which
    a compose file allows, is not understood: with the ports in place,
    [cargar_config_bd] raises a [TypeError] at the first variable it looks
    up. *)
Theorem cargar_config_bd_entorno_lista (top sv my : list (string * json))
    (mapeo : string) (otros entradas : list json) :
  buscar "services" top = Some (JObj sv) ->
  buscar "mysql" sv = Some (JObj my) ->
  buscar "ports" my = Some (JArr (JStr mapeo :: otros)) ->
  buscar "environment" my = Some (JArr entradas) ->
  exists e, cargar_config_bd (JObj top) = inl e /\ clase e = TypeError.
Proof.
  intros H1 H2 H3 H4. unfold cargar_config_bd.
  rewrite (item_clave_dict _ _ _ H1). cbn [ligar].
  rewrite (item_clave_dict _ _ _ H2). cbn [ligar].
  rewrite (item_clave_dict _ _ _ H3). cbn [ligar].
  rewrite (item_clave_dict _ _ _ H4). cbn [ligar item_cero receptor_split item_clave].
  eexists. split; reflexivity.
Qed.

Lemma cargar_config_bd_entorno_lista_witness :
  exists e,
    cargar_config_bd
      (compose (JArr [JStr "3307:3306"]) (JArr [JStr "MYSQL_USER=app"])) = inl e
    /\ clase e = TypeError.
Proof.
  refine (cargar_config_bd_entorno_lista _ _ _ "3307:3306" [] [JStr "MYSQL_USER=app"]
            _ _ _ _); reflexivity.
Defined.

End Configuracion.

(** ** How many calls a session makes *)

Section Llamadas.

Context {E : Entorno}.

Lemma cuenta_app (p : evento -> bool) (t u : list evento) :
  cuenta p (t ++ u) = cuenta p t + cuenta p u.
Proof. unfold cuenta. now rewrite filter_app, length_app. Qed.

Lemma cuenta_anotar (p : evento -> bool) (ev : evento) (s : estado E) (w : Mundo E) :
  cuenta p (traza (anotar ev s w)) = cuenta p (traza w) + (if p ev then 1 else 0).
Proof.
  unfold anotar. cbn [traza]. rewrite cuenta_app. unfold cuenta. simpl.
  now destruct (p ev).
Qed.

Lemma generar_respuesta_cuenta (p : evento -> bool) (w : Mundo E) (self : ModeloRemoto)
    (mensajes : list Mensaje) (temperatura top_p : QArith_base.Q) (max_tokens : Z) :
  cuenta p (traza (fst (generar_respuesta self mensajes temperatura top_p max_tokens w)))
  <= cuenta p (traza w) + (if p (EvPost (direccion_chat self)
                                   (carga_de self mensajes temperatura top_p max_tokens))
                           then 1 else 0).
Proof.
  unfold generar_respuesta, try_except, solicitar, bind, requests_post, llamar,
    puro, ret.
  destruct (env_post E _ _ (est w)) as [s' [e|resp]].
  - destruct (es_Timeout (clase e)); [|destruct (es_RequestException (clase e))];
      cbn [fst]; now rewrite cuenta_anotar.
  - destruct (raise_for_status resp) as [e|[]].
    + destruct (es_Timeout (clase e)); [|destruct (es_RequestException (clase e))];
        cbn [fst]; now rewrite cuenta_anotar.
    + destruct (cuerpo resp) as [e|j]; [|cbn [fst]; now rewrite cuenta_anotar].
      destruct (es_Timeout (clase e)); [|destruct (es_RequestException (clase e))];
        cbn [fst]; now rewrite cuenta_anotar.
Qed.

Lemma generar_sql_cuenta (p : evento -> bool) (w : Mundo E) (esquema pregunta : string)
    (modelo : ModeloRemoto) :
  cuenta p (traza (fst (generar_sql esquema pregunta modelo w)))
  <= cuenta p (traza w) + (if p (EvPost (direccion_chat modelo)
                                   (carga_de modelo (mensajes_sql esquema pregunta)
                                      (QArith_base.Qmake 1 10) (QArith_base.Qmake 9 10) 4096))
                           then 1 else 0).
Proof.
  pose proof (generar_respuesta_cuenta p w modelo (mensajes_sql esquema pregunta)
                (QArith_base.Qmake 1 10) (QArith_base.Qmake 9 10) 4096) as H.
  unfold generar_sql, bind, puro, ret.
  destruct (generar_respuesta _ _ _ _ _ w) as [w' [e|resp]]; [exact H|].
  destruct (contenido resp) as [e|texto]; [exact H|].
  destruct (receptor_strip texto); exact H.
Qed.

Lemma generar_respuesta_natural_cuenta (p : evento -> bool) (w : Mundo E)
    (pregunta : string) (resultado : valor) (modelo : ModeloRemoto) :
  cuenta p (traza (fst (generar_respuesta_natural pregunta resultado modelo w)))
  <= cuenta p (traza w) + (if p (EvPost (direccion_chat modelo)
                                   (carga_de modelo (mensajes_respuesta pregunta resultado)
                                      (QArith_base.Qmake 3 10) (QArith_base.Qmake 9 10) 4096))
                           then 1 else 0).
Proof.
  pose proof (generar_respuesta_cuenta p w modelo (mensajes_respuesta pregunta resultado)
                (QArith_base.Qmake 3 10) (QArith_base.Qmake 9 10) 4096) as H.
  unfold generar_respuesta_natural, bind, puro, ret.
  destruct (generar_respuesta _ _ _ _ _ w) as [w' [e|resp]]; [exact H|].
  destruct (contenido resp) as [e|texto]; [exact H|].
  destruct (como_str texto); exact H.
Qed.

Lemma ejecutar_sql_cuenta (w : Mundo E) (consulta : string) :
  cuenta es_post (traza (fst (ejecutar_sql consulta w))) = cuenta es_post (traza w)
  /\ cuenta es_bd (traza (fst (ejecutar_sql consulta w))) <= cuenta es_bd (traza w) + 3.
Proof.
  unfold ejecutar_sql, bind, try_except, conexion_cursor, cursor_execute,
    cursor_fetchall, llamar, ret, puro.
  destruct (env_cursor E (est w)) as [s1 [e1|[]]].
  { cbn [fst]. rewrite !cuenta_anotar. cbn. lia. }
  cbn [est anotar].
  destruct (env_execute E consulta [] s1) as [s2 [e2|[]]].
  { destruct (es_Exception (clase e2)); cbn [fst];
      fold (anotar EvCursor s1 w);
      fold (anotar (EvExecute consulta []) s2 (anotar EvCursor s1 w));
      rewrite !cuenta_anotar; cbn; lia. }
  assert (Hbase : forall s3,
            cuenta es_post (traza (anotar EvFetchall s3
               (anotar (EvExecute consulta []) s2 (anotar EvCursor s1 w))))
            = cuenta es_post (traza w)
            /\ cuenta es_bd (traza (anotar EvFetchall s3
               (anotar (EvExecute consulta []) s2 (anotar EvCursor s1 w))))
               <= cuenta es_bd (traza w) + 3).
  { intros s3. rewrite !cuenta_anotar. cbn. lia. }
  fold (anotar EvCursor s1 w).
  fold (anotar (EvExecute consulta []) s2 (anotar EvCursor s1 w)).
  destruct (es_select consulta).
  - cbn [est anotar].
    destruct (env_fetchall E s2) as [s3 [e3|[[|fila filas]|]]];
      try destruct (es_Exception (clase e3)); cbn [fst];
      fold (anotar EvCursor s1 w);
      fold (anotar (EvExecute consulta []) s2 (anotar EvCursor s1 w));
      fold (anotar EvFetchall s3
              (anotar (EvExecute consulta []) s2 (anotar EvCursor s1 w)));
      apply Hbase.
  - cbn [fst]. rewrite !cuenta_anotar. cbn. lia.
Qed.

End Llamadas.

Section LlamadasBucle.

Context {E : Entorno}.

Lemma ciclo_cuenta (w : Mundo E) (esquema : string) (modelo : ModeloRemoto) :
  cuenta es_post (traza (fst (ciclo esquema modelo w))) <= cuenta es_post (traza w) + 2
  /\ cuenta es_bd (traza (fst (ciclo esquema modelo w))) <= cuenta es_bd (traza w) + 3.
Proof.
  cut (forall r, r = ciclo esquema modelo w ->
         cuenta es_post (traza (fst r)) <= cuenta es_post (traza w) + 2
         /\ cuenta es_bd (traza (fst r)) <= cuenta es_bd (traza w) + 3).
  { intros H. exact (H _ eq_refl). }
  intros r Hr. unfold ciclo in Hr. unfold bind at 1 in Hr. unfold input, llamar in Hr.
  destruct (env_input E PROMPT (est w)) as [s1 [e|linea]].
  { subst r. cbn [fst]. rewrite !cuenta_anotar. cbn. lia. }
  set (w1 := anotar (EvInput PROMPT) s1 w) in *.
  assert (H1 : cuenta es_post (traza w1) = cuenta es_post (traza w)
               /\ cuenta es_bd (traza w1) = cuenta es_bd (traza w)).
  { unfold w1. rewrite !cuenta_anotar. cbn. lia. }
  destruct H1 as [H1p H1b]. clearbody w1.
  destruct (String.eqb (PyStr.lower (PyStr.strip linea)) "exit").
  { subst r. cbn [ret fst]. lia. }
  destruct (String.eqb (PyStr.strip linea) "").
  { subst r. unfold bind, print, llamar, ret. cbn [fst].
    rewrite !cuenta_anotar. cbn. lia. }
  unfold bind at 1 in Hr.
  pose proof (generar_sql_cuenta es_post w1 esquema (PyStr.strip linea) modelo) as G2p.
  pose proof (generar_sql_cuenta es_bd w1 esquema (PyStr.strip linea) modelo) as G2b.
  cbn [es_post es_bd] in G2p, G2b.
  destruct (generar_sql esquema (PyStr.strip linea) modelo w1) as [w2 [e|sql]];
    cbn [fst] in G2p, G2b; [subst r; cbn [fst]; lia|].
  destruct (String.eqb sql ""); [subst r; cbn [ret fst]; lia|].
  unfold bind at 1 in Hr. unfold print at 1 in Hr. unfold llamar at 1 in Hr.
  set (w2' := anotar (EvPrint (texto_sql sql)) (est w2) w2) in *.
  assert (H2 : cuenta es_post (traza w2') = cuenta es_post (traza w2)
               /\ cuenta es_bd (traza w2') = cuenta es_bd (traza w2)).
  { unfold w2'. rewrite !cuenta_anotar. cbn. lia. }
  destruct H2 as [H2p H2b]. clearbody w2'.
  unfold bind at 1 in Hr.
  destruct (ejecutar_sql_cuenta w2' sql) as [G3p G3b].
  destruct (ejecutar_sql sql w2') as [w3 [e|filas]]; cbn [fst] in G3p, G3b;
    [subst r; cbn [fst]; lia|].
  unfold bind at 1 in Hr. unfold puro at 1 in Hr.
  destruct (formatear_resultado filas) as [e|resultado]; [subst r; cbn [fst]; lia|].
  unfold bind at 1 in Hr. unfold print at 1 in Hr. unfold llamar at 1 in Hr.
  set (w3' := anotar (EvPrint (texto_resultado resultado)) (est w3) w3) in *.
  assert (H3 : cuenta es_post (traza w3') = cuenta es_post (traza w3)
               /\ cuenta es_bd (traza w3') = cuenta es_bd (traza w3)).
  { unfold w3'. rewrite !cuenta_anotar. cbn. lia. }
  destruct H3 as [H3p H3b]. clearbody w3'.
  unfold bind at 1 in Hr.
  pose proof (generar_respuesta_natural_cuenta es_post w3' (PyStr.strip linea)
                resultado modelo) as G4p.
  pose proof (generar_respuesta_natural_cuenta es_bd w3' (PyStr.strip linea)
                resultado modelo) as G4b.
  cbn [es_post es_bd] in G4p, G4b.
  destruct (generar_respuesta_natural (PyStr.strip linea) resultado modelo w3')
    as [w4 [e|respuesta]]; cbn [fst] in G4p, G4b; [subst r; cbn [fst]; lia|].
  subst r. unfold bind, print, llamar, ret. cbn [fst]. rewrite !cuenta_anotar. cbn. lia.
Qed.

(** X22.  A session is bounded in what it asks of its collaborators: after
    at most [n] cycles of the loop, the model has been called at most
    [2n] times and the database handle at most [3n] times more than
    before the loop. *)
Theorem bucle_cuenta (n : nat) (w : Mundo E) (esquema : string) (modelo : ModeloRemoto) :
  cuenta es_post (traza (fst (bucle n esquema modelo w)))
  <= cuenta es_post (traza w) + 2 * n
  /\ cuenta es_bd (traza (fst (bucle n esquema modelo w)))
     <= cuenta es_bd (traza w) + 3 * n.
Proof.
  revert w. induction n as [|n IH]; intros w.
  - cbn [bucle ret fst]. lia.
  - cbn [bucle]. unfold bind.
    destruct (ciclo_cuenta w esquema modelo) as [Hp Hb].
    destruct (ciclo esquema modelo w) as [w' [e|[|]]]; cbn [fst] in *.
    + lia.
    + cbn [ret fst]. lia.
    + destruct (IH w') as [IHp IHb]. lia.
Qed.

End LlamadasBucle.

Section ErrorComoSQL.

Context {E : Entorno}.

(** X23.  When the request for a statement times out, [generar_sql] does
    not fail: it returns the timeout sentence of the chat client as if it
    were the statement, and that sentence does not pass the gate. *)
Theorem generar_sql_timeout (w : Mundo E) (esquema pregunta : string)
    (modelo : ModeloRemoto) (s' : estado E) (e : excepcion) :
  env_post E (direccion_chat modelo)
    (carga_de modelo (mensajes_sql esquema pregunta)
       (QArith_base.Qmake 1 10) (QArith_base.Qmake 9 10) 4096) (est w) = (s', inl e) ->
  es_Timeout (clase e) = true ->
  snd (generar_sql esquema pregunta modelo w) = inr MSG_TIMEOUT
  /\ es_select MSG_TIMEOUT = false.
Proof.
  intros Hp Ht. split; [|reflexivity].
  unfold generar_sql, bind, puro, ret, generar_respuesta, try_except, solicitar,
    bind, requests_post, llamar.
  rewrite Hp, Ht. reflexivity.
Qed.

End ErrorComoSQL.

Lemma generar_sql_timeout_witness :
  snd (generar_sql "" "How many users are there?" modelo_lm
         (simulado [] [inl (Exc Timeout "Read timed out. (read timeout=120)")]))
  = inr MSG_TIMEOUT
  /\ es_select MSG_TIMEOUT = false.
Proof.
  refine (@generar_sql_timeout Sim.entorno
            (simulado [] [inl (Exc Timeout "Read timed out. (read timeout=120)")])
            "" "How many users are there?" modelo_lm (est (simulado [] []))
            (Exc Timeout "Read timed out. (read timeout=120)") _ _); reflexivity.
Defined.

(** ** When the Markdown cleanup is idempotent *)

Section MarkdownIdempotencia.

Lemma coincide_en_vacio (d : string) : coincide_en d "" = false.
Proof.
  cbn [coincide_en]. unfold Re.match_delim.
  destruct (prefix d ""); [|reflexivity]. now destruct (String.length d).
Qed.

(** Without a match, [re.sub] gives the text back. *)
Lemma sub_delim_sin_coincidencia (d s : string) :
  coincide_en d s = false -> Re.sub_delim d s = s.
Proof.
  unfold Re.sub_delim. generalize (String.length s) as n.
  intros n; revert s. induction n as [|n IH]; intros s H; [reflexivity|].
  cbn [Re.sub_delim_aux]. destruct s as [|c s].
  - cbn [coincide_en] in H. now destruct (Re.match_delim d "").
  - cbn [coincide_en] in H.
    destruct (Re.match_delim d (String c s)); [discriminate|]. now rewrite IH.
Qed.

(** With a match of a non-empty delimiter, [re.sub] gives a shorter text:
    the two delimiters of the first match are gone. *)
Lemma sub_delim_aux_con_coincidencia (n : nat) (d s : string) :
  d <> "" -> coincide_en d s = true -> String.length s <= n ->
  String.length (Re.sub_delim_aux n d s) < String.length s.
Proof.
  intros Hd. revert s. induction n as [|n IH]; intros s H Hn.
  - destruct s; [|simpl in Hn; lia]. now rewrite coincide_en_vacio in H.
  - cbn [Re.sub_delim_aux]. destruct s as [|c s].
    + now rewrite coincide_en_vacio in H.
    + cbn [coincide_en] in H.
      destruct (Re.match_delim d (String c s)) as [[g r]|] eqn:Hm.
      * apply match_delim_length in Hm. rewrite length_append.
        pose proof (sub_delim_aux_length n d r) as Hr.
        destruct d; [contradiction|]. cbn [String.length] in *. lia.
      * cbn [String.length] in *. specialize (IH s H). lia.
Qed.

Lemma pasada_length (ds : list string) (s : string) :
  String.length (fold_left (fun t patron => Re.sub_delim patron t) ds s)
  <= String.length s.
Proof.
  revert s. induction ds as [|d ds IH]; intros s; [simpl; lia|].
  cbn [fold_left]. specialize (IH (Re.sub_delim d s)).
  pose proof (sub_delim_length d s). lia.
Qed.

Lemma pasada_sin_coincidencias (ds : list string) (s : string) :
  forallb (fun patron => negb (coincide_en patron s)) ds = true ->
  fold_left (fun t patron => Re.sub_delim patron t) ds s = s.
Proof.
  induction ds as [|d ds IH]; [reflexivity|].
  cbn [forallb fold_left]. intros H. apply andb_true_iff in H as [Hd Hds].
  apply negb_true_iff in Hd. rewrite (sub_delim_sin_coincidencia d s Hd).
  now apply IH.
Qed.

Lemma pasada_con_coincidencia (ds : list string) (s : string) :
  Forall (fun patron => patron <> "") ds ->
  forallb (fun patron => negb (coincide_en patron s)) ds = false ->
  String.length (fold_left (fun t patron => Re.sub_delim patron t) ds s)
  < String.length s.
Proof.
  intros Hne. induction Hne as [|d ds Hd Hne IH]; [discriminate|].
  cbn [forallb fold_left]. intros H.
  destruct (coincide_en d s) eqn:Hc.
  - pose proof (sub_delim_aux_con_coincidencia (String.length s) d s Hd Hc (le_n _)) as H1.
    fold (Re.sub_delim d s) in H1.
    pose proof (pasada_length ds (Re.sub_delim d s)). lia.
  - rewrite (sub_delim_sin_coincidencia d s Hc). apply IH. exact H.
Qed.

Lemma patrones_no_vacios : Forall (fun patron => patron <> "") patrones.
Proof. repeat constructor; discriminate. Qed.

(** C4, amended.  Applying the Markdown cleanup to its own result changes
    nothing exactly when none of the five patterns has a match left in
    that result: for every text [t], cleaning [limpiar_markdown t] again
    gives [limpiar_markdown t] if and only if no pattern matches in
    [limpiar_markdown t]. *)
Theorem limpiar_markdown_idempotente_sii (t : string) :
  limpiar_markdown (limpiar_markdown t) = limpiar_markdown t
  <-> sin_coincidencias (limpiar_markdown t) = true.
Proof.
  unfold sin_coincidencias. split.
  - intros H.
    destruct (forallb (fun patron => negb (coincide_en patron (limpiar_markdown t)))
                patrones) eqn:Hf; [reflexivity|].
    pose proof (pasada_con_coincidencia patrones (limpiar_markdown t)
                  patrones_no_vacios Hf) as Hlt.
    pose proof (length_strip
                  (fold_left (fun t patron => Re.sub_delim patron t) patrones
                     (limpiar_markdown t))) as Hle.
    assert (Heq : String.length (limpiar_markdown (limpiar_markdown t))
                  = String.length (limpiar_markdown t)) by now rewrite H.
    unfold limpiar_markdown at 1 in Heq. lia.
  - intros H. unfold limpiar_markdown at 1.
    rewrite (pasada_sin_coincidencias _ _ H).
    apply limpiar_markdown_estripado.
Qed.

Lemma limpiar_markdown_idempotente_sii_witness :
  sin_coincidencias (limpiar_markdown "  2 * 3 = 6, **a_b** y ****  ") = true
  /\ limpiar_markdown (limpiar_markdown "  2 * 3 = 6, **a_b** y ****  ")
     = limpiar_markdown "  2 * 3 = 6, **a_b** y ****  ".
Proof.
  split; [reflexivity|].
  apply (proj2 (limpiar_markdown_idempotente_sii "  2 * 3 = 6, **a_b** y ****  ")).
  reflexivity.
Defined.

Example limpiar_marcas_sueltas :
  limpiar_markdown "a_b" = "a_b" /\ limpiar_markdown "2 * 3 = 6" = "2 * 3 = 6"
  /\ limpiar_markdown "****" = "**" /\ limpiar_markdown "**" = "**".
Proof. repeat split. Qed.

Example limpiar_coincidencia_restante :
  sin_coincidencias (limpiar_markdown "``a``") = false.
Proof. reflexivity. Qed.

End MarkdownIdempotencia.
